(** * sync_kudos: the management command that syncs the Kudos database
      with the Kudos contract

    Shallow embedding of [app/kudos/management/commands/sync_kudos.py]
    (class [Command]: [opensea_sync], [filter_sync], [id_sync], [handle]).

    The command only orchestrates calls into collaborators whose code lives
    elsewhere ([kudos.utils.KudosContract], the web3 client, [requests], the
    Django ORM).  Those are taken as an interface ([Externals]); every call
    into one of them is recorded, in the order it is made, in the [trace] of
    the world the command runs in.  Python exceptions are results, and the
    world reached when an exception is raised is kept, so one can read off
    what had been done before the command aborted.

    Logging ([logger.info], [logger.debug]) has no influence on control flow
    and is not recorded; reading the logged variable is. *)

From Stdlib Require Import ZArith List String Ascii Bool Lia Sorted.
Import ListNotations.
Local Open Scope string_scope.
Local Open Scope Z_scope.
Local Open Scope list_scope.
Set Warnings "-register-all".

(** ** Python values and builtins *)

Module Py.

(** The Python values the command handles: [None], flags, integers (Python
    integers are unbounded, hence [Z]), strings, and the lists and
    dictionaries of a decoded JSON document.  Floating point numbers are
    outside the model, and strings are taken to be ASCII: [isdigit] and [int]
    below know the digits 0 to 9 only. *)
Inductive pyval : Type :=
| PNone
| PBool (b : bool)
| PInt (n : Z)
| PStr (s : string)
| PList (l : list pyval)
| PDict (d : list (string * pyval)).

(** The exceptions that can reach the top of the command. *)
Inductive exn : Type :=
| RuntimeError (msg : string)
| ValueError (msg : string)
| TypeError
| KeyError (key : string)
| IndexError
| UnboundLocalError (var : string)
| HTTPError (status_code : Z)
| OtherError (name : string).

(** Result of a pure builtin or of one call into a collaborator. *)
Inductive result (A : Type) : Type :=
| Return (a : A)
| Raise (e : exn).
Arguments Return {A} a.
Arguments Raise {A} e.

Definition rbind {A B} (r : result A) (k : A -> result B) : result B :=
  match r with
  | Return a => k a
  | Raise e => Raise e
  end.

(** Truth value of the three cursor options as [handle] tests them:
    [if start:] on [None] or a [str], [elif rewind:] on [None] or an [int]. *)
Definition truthy_str (o : option string) : bool :=
  match o with
  | Some s => negb (s =? "")%string
  | None => false
  end.

Definition truthy_int (o : option Z) : bool :=
  match o with
  | Some n => negb (n =? 0)
  | None => false
  end.

Definition is_digit (c : ascii) : bool :=
  let n := N_of_ascii c in (48 <=? n)%N && (n <=? 57)%N.

Definition digit_val (c : ascii) : Z := Z.of_N (N_of_ascii c) - 48.

(** Whitespace as [int()] skips it around an ASCII literal: tab, line feed,
    vertical tab, form feed, carriage return and space (the separators 28 to
    31 are not skipped). *)
Definition is_space (c : ascii) : bool :=
  let n := N_of_ascii c in
  ((9 <=? n)%N && (n <=? 13)%N) || (n =? 32)%N.

(** The strings within the scope of [isdigit] and [int] below. *)
Definition is_ascii (s : string) : bool :=
  forallb (fun c => (N_of_ascii c <? 128)%N) (list_ascii_of_string s).

(** [str.isdigit()]: at least one character, and all of them digits. *)
Definition isdigit (s : string) : bool :=
  match list_ascii_of_string s with
  | [] => false
  | cs => forallb is_digit cs
  end.

Fixpoint lstrip (cs : list ascii) : list ascii :=
  match cs with
  | c :: cs' => if is_space c then lstrip cs' else cs
  | [] => []
  end.

Definition strip (cs : list ascii) : list ascii :=
  rev (lstrip (rev (lstrip cs))).

(** Decimal digits with single underscores allowed between two digits.
    [prev] tells whether the previous character was a digit. *)
Fixpoint parse_digits (cs : list ascii) (prev : bool) (acc : Z) : option Z :=
  match cs with
  | [] => if prev then Some acc else None
  | c :: cs' =>
      if is_digit c then parse_digits cs' true (10 * acc + digit_val c)
      else if (c =? "_")%char then
        if prev then
          match cs' with
          | d :: _ => if is_digit d then parse_digits cs' false acc else None
          | [] => None
          end
        else None
      else None
  end.

(** The interpreter's default limit on the number of digits of a literal
    that [int()] converts ([sys.int_max_str_digits]). *)
Definition int_max_str_digits : Z := 4300.

(** The digits of a literal, after its sign: the syntax is checked first,
    then the number of digits (underscores not counted) against the
    limit. *)
Definition int_of_digits (cs : list ascii) : result Z :=
  match parse_digits cs false 0 with
  | Some n =>
      if Z.of_nat (List.length (List.filter is_digit cs)) <=? int_max_str_digits
      then Return n
      else Raise (ValueError
                    "Exceeds the limit (4300 digits) for integer string conversion")
  | None => Raise (ValueError "invalid literal for int() with base 10")
  end.

(** [int(s)] for a string [s], base 10. *)
Definition int_of_str (s : string) : result Z :=
  match strip (list_ascii_of_string s) with
  | c :: cs =>
      if (c =? "-")%char then rbind (int_of_digits cs) (fun n => Return (- n))
      else if (c =? "+")%char then int_of_digits cs
      else int_of_digits (c :: cs)
  | [] => Raise (ValueError "invalid literal for int() with base 10")
  end.

(** The builtin [int(v)]. *)
Definition int (v : pyval) : result Z :=
  match v with
  | PInt n => Return n
  | PBool b => Return (if b then 1 else 0)
  | PStr s => int_of_str s
  | PNone | PList _ | PDict _ => Raise TypeError
  end.

Fixpoint dict_get (d : list (string * pyval)) (k : string) : option pyval :=
  match d with
  | (k', v) :: d' => if (k' =? k)%string then Some v else dict_get d' k
  | [] => None
  end.

(** Subscription [v[k]] with a string key. *)
Definition getitem (v : pyval) (k : string) : result pyval :=
  match v with
  | PDict d =>
      match dict_get d k with
      | Some x => Return x
      | None => Raise (KeyError k)
      end
  | _ => Raise TypeError
  end.

(** Subscription [v[0]].  The keys of a decoded JSON object are strings, so
    [0] is never among them. *)
Definition getitem0 (v : pyval) : result pyval :=
  match v with
  | PList (x :: _) => Return x
  | PList [] => Raise IndexError
  | PStr (String c _) => Return (PStr (String c EmptyString))
  | PStr EmptyString => Raise IndexError
  | PDict _ => Raise (KeyError "0")
  | _ => Raise TypeError
  end.

(** The value of an option that was tested to be true. *)
Definition the_str (o : option string) : string :=
  match o with
  | Some s => s
  | None => ""
  end.

Definition the_int (o : option Z) : Z :=
  match o with
  | Some n => n
  | None => 0
  end.

(** Reading a local variable that no branch has assigned. *)
Definition read_local {A} (name : string) (v : option A) : result A :=
  match v with
  | Some a => Return a
  | None => Raise (UnboundLocalError name)
  end.

End Py.
Export Py.

(** ** The collaborators and the world *)

(** Positional arguments of the command line; [argparse] restricts both to
    their [choices]. *)
Inductive Network : Type := localhost | rinkeby | mainnet.
Inductive SyncMethod : Type := by_filter | by_id | by_opensea.

Definition network_name (n : Network) : string :=
  match n with
  | localhost => "localhost"
  | rinkeby => "rinkeby"
  | mainnet => "mainnet"
  end.

(** [options] as [handle] reads it.  [start] is a [str] or [None], [rewind]
    an [int] or [None], [catchup] a flag. *)
Record Options : Type := {
  opt_network : Network;
  opt_syncmethod : SyncMethod;
  opt_start : option string;
  opt_rewind : option Z;
  opt_catchup : bool
}.

(** The attributes of a [KudosContract] object that the command reads. *)
Record KudosContract : Type := {
  kc_network : string;
  kc_address : string
}.

(** An entry of [event_filter.get_all_entries()]. *)
Record TransferEvent : Type := {
  blockNumber : Z;
  _tokenId : Z;
  transactionHash : list Byte.byte
}.

(** What the command reads of a [requests] response: [None] as [body]
    stands for a body that is not a JSON document. *)
Record Response : Type := {
  status_code : Z;
  body : option pyval
}.

(** [r.raise_for_status()] *)
Definition raise_for_status (r : Response) : result unit :=
  if (400 <=? status_code r) && (status_code r <? 600)
  then Raise (HTTPError (status_code r))
  else Return tt.

(** [r.json()] *)
Definition json (r : Response) : result pyval :=
  match body r with
  | Some v => Return v
  | None => Raise (ValueError "JSONDecodeError")
  end.

(** One call into a collaborator, with the arguments the command chose. *)
Inductive call : Type :=
| KudosContract_call (network : string)
| totalSupply_call
| getBlock_call
| createFilter_call (fromBlock : pyval)
| get_all_entries_call
| aggregate_Max_id_call
| requests_get_call (url : string) (asset_contract_address : string)
    (token_id : Z) (api_key : string)
| sync_db_call (kudos_id : Z) (txid : pyval)
| sync_db_without_txid_call (kudos_id : Z).

(** The calls that write to the store. *)
Definition is_upsert (c : call) : bool :=
  match c with
  | sync_db_call _ _ | sync_db_without_txid_call _ => true
  | _ => false
  end.

Definition upserts (t : list call) : list call := List.filter is_upsert t.

(** The interface of the collaborators.  [R] is the state of everything
    remote (the ledger, the external index), [S] the state of the store.
    Every remote call and every upsert may raise; the answers may depend on
    everything that happened before. *)
Record Externals (R S : Type) : Type := {
  (** [web3.__version__] *)
  web3_version : string;
  (** [settings.OPENSEA_API_KEY] *)
  OPENSEA_API_KEY : string;
  (** [KudosContract(network, sockets=True)] *)
  KudosContract_new : string -> R -> result KudosContract * R;
  (** [kudos_contract._contract.functions.totalSupply().call()] *)
  totalSupply : KudosContract -> R -> result Z * R;
  (** [kudos_contract._w3.eth.getBlock('latest')['number']] *)
  getBlock_latest_number : KudosContract -> R -> result Z * R;
  (** [kudos_contract._contract.events.Transfer.createFilter(fromBlock=...)] *)
  createFilter : KudosContract -> pyval -> R -> result Z * R;
  (** [event_filter.get_all_entries()] *)
  get_all_entries : Z -> R -> result (list TransferEvent) * R;
  (** [event.transactionHash.hex()] *)
  hex : list Byte.byte -> string;
  (** [requests.get(url, params=payload, headers=headers)] *)
  requests_get : string -> string -> Z -> string -> R -> result Response * R;
  (** the [id] column of the rows of [Token.objects] *)
  Token_ids : S -> list Z;
  (** [kudos_contract.sync_db(kudos_id=..., txid=...)] *)
  sync_db : KudosContract -> Z -> pyval -> R -> S -> result unit * (R * S);
  (** [kudos_contract.sync_db_without_txid(kudos_id=...)] *)
  sync_db_without_txid : KudosContract -> Z -> R -> S -> result unit * (R * S)
}.

Arguments web3_version {R S} _.
Arguments OPENSEA_API_KEY {R S} _.
Arguments KudosContract_new {R S} _ _ _.
Arguments totalSupply {R S} _ _ _.
Arguments getBlock_latest_number {R S} _ _ _.
Arguments createFilter {R S} _ _ _ _.
Arguments get_all_entries {R S} _ _ _.
Arguments hex {R S} _ _.
Arguments requests_get {R S} _ _ _ _ _ _.
Arguments Token_ids {R S} _ _.
Arguments sync_db {R S} _ _ _ _ _ _.
Arguments sync_db_without_txid {R S} _ _ _ _ _.

(** The world a run lives in. *)
Record world (R S : Type) : Type := World {
  remote : R;
  store : S;
  trace : list call
}.
Arguments World {R S} _ _ _.
Arguments remote {R S} _.
Arguments store {R S} _.
Arguments trace {R S} _.

(** How a run ends.  [OutOfFuel] is not a Python outcome: it says that the
    bound given to a [while] loop was too small to see the loop end. *)
Inductive outcome (A : Type) : Type :=
| Ok (a : A)
| Exc (e : exn)
| OutOfFuel.
Arguments Ok {A} a.
Arguments Exc {A} e.
Arguments OutOfFuel {A}.

Definition of_result {A} (r : result A) : outcome A :=
  match r with
  | Return a => Ok a
  | Raise e => Exc e
  end.

(** [Max('id')] over a table: [None] on an empty one. *)
Definition aggregate_Max (ids : list Z) : pyval :=
  match ids with
  | [] => PNone
  | i :: rest => PInt (fold_left Z.max rest i)
  end.

(** Python's [range(lo, hi)]. *)
Definition range (lo hi : Z) : list Z :=
  map (fun i => lo + Z.of_nat i) (seq 0 (Z.to_nat (hi - lo))).

(** ** Runs: state, exceptions and the trace *)

Definition M (R S A : Type) : Type := world R S -> outcome A * world R S.

Definition ret {R S A} (a : A) : M R S A := fun w => (Ok a, w).

Definition raise {R S A} (e : exn) : M R S A := fun w => (Exc e, w).

Definition bind {R S A B} (c : M R S A) (k : A -> M R S B) : M R S B :=
  fun w =>
    match c w with
    | (Ok a, w') => k a w'
    | (Exc e, w') => (Exc e, w')
    | (OutOfFuel, w') => (OutOfFuel, w')
    end.

Declare Scope run_scope.
Delimit Scope run_scope with run.
Notation "x <- c ;; k" := (bind c (fun x => k))
  (at level 61, c at next level, right associativity) : run_scope.
Notation "c ;; k" := (bind c (fun _ => k))
  (at level 61, right associativity) : run_scope.
Local Open Scope run_scope.

(** A pure step that may raise. *)
Definition lift {R S A} (r : result A) : M R S A :=
  fun w => (of_result r, w).

(** A call that reaches the remote side only. *)
Definition remote_call {R S A} (c : call) (f : R -> result A * R) : M R S A :=
  fun w =>
    let (r, rem) := f (remote w) in
    (of_result r, World rem (store w) (trace w ++ [c])).

(** A call that may write to the store, reading the remote side. *)
Definition store_call {R S A} (c : call)
    (f : R -> S -> result A * (R * S)) : M R S A :=
  fun w =>
    let '(r, (rem, st)) := f (remote w) (store w) in
    (of_result r, World rem st (trace w ++ [c])).

(** A query on the store; it does not change it (a failing database is
    outside the model). *)
Definition store_query {R S A} (c : call) (f : S -> A) : M R S A :=
  fun w => (Ok (f (store w)), World (remote w) (store w) (trace w ++ [c])).

(** [for x in xs: body] *)
Fixpoint for_each {R S A} (xs : list A) (body : A -> M R S unit) : M R S unit :=
  match xs with
  | [] => ret tt
  | x :: xs' => body x ;; for_each xs' body
  end.

(** [while cond: body] over the local variables [L] of the loop, the test
    being made at most [fuel] times. *)
Fixpoint while {R S L} (fuel : nat) (cond : L -> bool) (body : L -> M R S L)
    (l : L) : M R S L :=
  match fuel with
  | O => fun w => (OutOfFuel, w)
  | Datatypes.S fuel' =>
      if cond l then l' <- body l ;; while fuel' cond body l'
      else ret l
  end.

(** ** The command *)

(** The local variables of the loop of [id_sync]. *)
Record id_locals : Type := {
  kudos_enum : Z;
  more_kudos : bool
}.

Section Command.

Context {R S : Type} (X : Externals R S).

(** The choice of the endpoint at the head of [opensea_sync]. *)
Definition opensea_url (network : string) : result string :=
  if (network =? "rinkeby")%string then
    Return "https://rinkeby-api.opensea.io/api/v1/events"
  else if (network =? "mainnet")%string then
    Return "https://api.opensea.io/api/v1/events"
  else
    Raise (RuntimeError
      "The Open Sea API is only supported for contracts on rinkeby and mainnet.").

(** [r.json()['asset_events'][0]['asset']['token_id']] *)
Definition asset_token_id (r : Response) : result pyval :=
  rbind (json r) (fun j =>
  rbind (getitem j "asset_events") (fun evs =>
  rbind (getitem0 evs) (fun ev =>
  rbind (getitem ev "asset") (fun a =>
  getitem a "token_id")))).

(** What one iteration of [opensea_sync] extracts from the response,
    in the order the source evaluates it. *)
Definition opensea_decode (r : Response) : result (Z * pyval) :=
  rbind (raise_for_status r) (fun _ =>
  rbind (rbind (json r) (fun j =>
         rbind (getitem j "asset_events") (fun evs =>
         rbind (getitem0 evs) (fun ev =>
         rbind (getitem ev "asset") (fun a =>
         getitem a "token_id"))))) (fun asset_token_id =>
  rbind (rbind (json r) (fun j =>
         rbind (getitem j "asset_events") (fun evs =>
         rbind (getitem0 evs) (fun ev =>
         rbind (getitem ev "transaction") (fun t =>
         getitem t "transaction_hash"))))) (fun transaction_hash =>
  rbind (int asset_token_id) (fun kudos_id =>
  Return (kudos_id, transaction_hash))))).

(** The body of the [for] loop of [opensea_sync]. *)
Definition opensea_sync_body (kudos_contract : KudosContract) (url : string)
    (token_id : Z) : M R S unit :=
  let api_key := OPENSEA_API_KEY X in
  r <- remote_call
         (requests_get_call url (kc_address kudos_contract) token_id api_key)
         (requests_get X url (kc_address kudos_contract) token_id api_key) ;;
  decoded <- lift (opensea_decode r) ;;
  let '(kudos_id, transaction_hash) := decoded in
  store_call (sync_db_call kudos_id transaction_hash)
             (sync_db X kudos_contract kudos_id transaction_hash).

Definition opensea_sync (kudos_contract : KudosContract) (start_id : Z) : M R S unit :=
  url <- lift (opensea_url (kc_network kudos_contract)) ;;
  end_id <- remote_call totalSupply_call (totalSupply X kudos_contract) ;;
  let token_ids := range start_id (end_id + 1) in
  for_each token_ids (opensea_sync_body kudos_contract url).

Definition filter_sync (kudos_contract : KudosContract) (fromBlock : pyval) : M R S unit :=
  event_filter <- remote_call (createFilter_call fromBlock)
                    (createFilter X kudos_contract fromBlock) ;;
  entries <- remote_call get_all_entries_call (get_all_entries X event_filter) ;;
  for_each entries (fun event =>
    let txid := PStr (hex X (transactionHash event)) in
    store_call (sync_db_call (_tokenId event) txid)
               (sync_db X kudos_contract (_tokenId event) txid)).

(** The body of the [while] loop of [id_sync]. *)
Definition id_sync_body (kudos_contract : KudosContract) (end_id : Z)
    (l : id_locals) : M R S id_locals :=
  store_call (sync_db_without_txid_call (kudos_enum l))
             (sync_db_without_txid X kudos_contract (kudos_enum l)) ;;
  let kudos_enum := kudos_enum l + 1 in
  if kudos_enum >? end_id
  then ret {| kudos_enum := kudos_enum; more_kudos := false |}
  else ret {| kudos_enum := kudos_enum; more_kudos := more_kudos l |}.

Definition id_sync (fuel : nat) (kudos_contract : KudosContract) (start_id : Z) : M R S unit :=
  end_id <- remote_call totalSupply_call (totalSupply X kudos_contract) ;;
  while fuel more_kudos (id_sync_body kudos_contract end_id)
    {| kudos_enum := start_id; more_kudos := true |} ;;
  ret tt.

(** [handle].  [fuel] bounds the loop of [id_sync].  The message of the
    second [ValueError] has single quotes where the source has double ones. *)
Definition handle (fuel : nat) (options : Options) : M R S unit :=
  let network := opt_network options in
  let syncmethod := opt_syncmethod options in
  let start := opt_start options in
  let rewind := opt_rewind options in
  let catchup := opt_catchup options in
  kudos_contract <- remote_call (KudosContract_call (network_name network))
                      (KudosContract_new X (network_name network)) ;;
  match syncmethod with
  | by_filter =>
      fromBlock <-
        (if truthy_str start then
           let start := the_str start in
           if isdigit start then
             raise (RuntimeError
               "This option is unstable if not on web3py 4.7.2.  May crash testrpc.")
           else if (start =? "earliest")%string || (start =? "latest")%string then
             ret (Some (PStr start))
           else
             raise (ValueError "--fromBlock must be 'earliest', or 'latest'")
         else if truthy_int rewind then
           if negb (web3_version X =? "4.7.2")%string then
             raise (RuntimeError
               "This option is unstable if not on web3py 4.7.2.  May crash testrpc.")
           else
             number <- remote_call getBlock_call
                         (getBlock_latest_number X kudos_contract) ;;
             ret (Some (PInt (number - the_int rewind)))
         else if catchup then
           raise (ValueError "--catchup option is not valid for filter syncing")
         else ret None) ;;
      fromBlock <- lift (read_local "fromBlock" fromBlock) ;;
      filter_sync kudos_contract fromBlock
  | _ =>
      start_id <-
        (if truthy_str start then
           ret (Some (PStr (the_str start)))
         else if truthy_int rewind then
           supply <- remote_call totalSupply_call (totalSupply X kudos_contract) ;;
           ret (Some (PInt (supply - the_int rewind)))
         else if catchup then
           id__max <- store_query aggregate_Max_id_call
                        (fun s => aggregate_Max (Token_ids X s)) ;;
           ret (Some id__max)
         else ret None) ;;
      match syncmethod with
      | by_id =>
          start_id <- lift (rbind (read_local "start_id" start_id) int) ;;
          id_sync fuel kudos_contract start_id
      | by_opensea =>
          start_id <- lift (rbind (read_local "start_id" start_id) int) ;;
          opensea_sync kudos_contract start_id
      | by_filter => ret tt
      end
  end.

End Command.

(** ** A small concrete world

    A ledger with a token supply that may grow while a run is in progress,
    an external index answering per token, and a store of rows
    [(id, txid)].  It is used to run the command on concrete inputs. *)

Module Sim.

Record chain : Type := {
  supply : Z;
  head : Z;
  entries : list TransferEvent;
  index : Z -> Response;
  (** tokens minted on the ledger while one upsert is in progress *)
  minted_per_sync : Z
}.

Definition db : Type := list (Z * pyval).

Definition grow (c : chain) : chain :=
  {| supply := supply c + minted_per_sync c;
     head := head c;
     entries := entries c;
     index := index c;
     minted_per_sync := minted_per_sync c |}.

Fixpoint upsert (k : Z) (txid : pyval) (rows : db) : db :=
  match rows with
  | [] => [(k, txid)]
  | (k', t) :: rows' =>
      if k' =? k then (k, txid) :: rows' else (k', t) :: upsert k txid rows'
  end.

Definition nibble (n : N) : ascii :=
  ascii_of_N (if (n <? 10)%N then 48 + n else 87 + n).

Definition hex_of_bytes (bs : list Byte.byte) : string :=
  ("0x" ++ string_of_list_ascii
             (flat_map (fun b => let n := Byte.to_N b in
                                 [nibble (n / 16); nibble (n mod 16)]) bs))%string.

Definition kudos (network : string) : KudosContract :=
  {| kc_network := network; kc_address := "0xkudos" |}.

Definition X (version : string) : Externals chain db :=
  {| web3_version := version;
     OPENSEA_API_KEY := "key";
     KudosContract_new := fun network c =>
       (Return (kudos network), c);
     totalSupply := fun _ c => (Return (supply c), c);
     getBlock_latest_number := fun _ c => (Return (head c), c);
     createFilter := fun _ _ c => (Return 1, c);
     get_all_entries := fun _ c => (Return (entries c), c);
     hex := hex_of_bytes;
     requests_get := fun _ _ token_id _ c => (Return (index c token_id), c);
     Token_ids := map fst;
     sync_db := fun _ k txid c rows => (Return tt, (grow c, upsert k txid rows));
     sync_db_without_txid := fun _ k c rows =>
       (Return tt, (grow c, upsert k PNone rows)) |}.

(** The answer of the external index for a token with one transfer. *)
Definition asset_event (token_id txid : string) : Response :=
  {| status_code := 200;
     body := Some (PDict [("asset_events",
               PList [PDict [("asset", PDict [("token_id", PStr token_id)]);
                             ("transaction",
                              PDict [("transaction_hash", PStr txid)])]])]) |}.

Definition server_error : Response := {| status_code := 500; body := None |}.

Definition chain0 (supply0 minted : Z) : chain :=
  {| supply := supply0;
     head := 100;
     entries := [];
     index := fun k =>
       if k =? 1 then asset_event "1" "0xaa"
       else if k =? 2 then server_error
       else asset_event "3" "0xcc";
     minted_per_sync := minted |}.

Definition world0 (supply0 minted : Z) (rows : db) : world chain db :=
  World (chain0 supply0 minted) rows [].

Definition options (network : Network) (syncmethod : SyncMethod)
    (start : option string) (rewind : option Z) (catchup : bool) : Options :=
  {| opt_network := network;
     opt_syncmethod := syncmethod;
     opt_start := start;
     opt_rewind := rewind;
     opt_catchup := catchup |}.

(** [--rewind 3] with the enumeration strategy on a ledger of supply 1. *)
Definition rewind_beyond_supply : outcome unit * world chain db :=
  handle (X "4.7.2") 10 (options mainnet by_id None (Some 3) false)
    (world0 1 0 []).

(** [--rewind 1] with the external-index strategy on localhost. *)
Definition opensea_on_localhost : outcome unit * world chain db :=
  handle (X "4.7.2") 10 (options localhost by_opensea None (Some 1) false)
    (world0 3 0 []).


End Sim.

(** ** What a run may call *)

(** The calls a strategy may make once the contract handle is built. *)
Definition allowed (m : SyncMethod) (c : call) : bool :=
  match m, c with
  | by_filter, getBlock_call
  | by_filter, createFilter_call _
  | by_filter, get_all_entries_call
  | by_filter, sync_db_call _ _ => true
  | by_id, totalSupply_call
  | by_id, aggregate_Max_id_call
  | by_id, sync_db_without_txid_call _ => true
  | by_opensea, totalSupply_call
  | by_opensea, aggregate_Max_id_call
  | by_opensea, requests_get_call _ _ _ _
  | by_opensea, sync_db_call _ _ => true
  | _, _ => false
  end.

(** A computation has footprint [P] when, from every world, it only adds
    calls satisfying [P] to the trace, and leaves the store as it was unless
    one of the calls it adds is an upsert. *)
Definition footprint {R S A} (P : call -> bool) (c : M R S A) : Prop :=
  forall w, exists t,
    trace (snd (c w)) = trace w ++ t
    /\ forallb P t = true
    /\ (upserts t = [] -> store (snd (c w)) = store w).

(** The upsert of [id_sync] and the one of [filter_sync], as steps of a run. *)
Definition upsert_id {R S} (X : Externals R S) (kudos_contract : KudosContract)
    (kudos_id : Z) : M R S unit :=
  store_call (sync_db_without_txid_call kudos_id)
             (sync_db_without_txid X kudos_contract kudos_id).

Definition upsert_event {R S} (X : Externals R S) (kudos_contract : KudosContract)
    (event : TransferEvent) : M R S unit :=
  store_call (sync_db_call (_tokenId event) (PStr (hex X (transactionHash event))))
             (sync_db X kudos_contract (_tokenId event)
                (PStr (hex X (transactionHash event)))).

(** One completed iteration of [opensea_sync] as it shows in the trace: the
    request for [token_id], then the upsert of what the answer held. *)
Definition opensea_round (url address api_key : string)
    (round : Z * (Z * pyval)) : list call :=
  let '(token_id, (kudos_id, txid)) := round in
  [requests_get_call url address token_id api_key; sync_db_call kudos_id txid].

(** ** A second concrete world

    The ledger of [Sim] with three transfer events (token 1 changes hands
    twice), an external index whose answers do not change, and collaborators
    whose upsert of the token [bad], when there is one, raises. *)

Module Scenario.

Definition transfers : list TransferEvent :=
  [ {| blockNumber := 10; _tokenId := 1; transactionHash := [Byte.xaa] |};
    {| blockNumber := 11; _tokenId := 2; transactionHash := [Byte.xbb] |};
    {| blockNumber := 12; _tokenId := 1; transactionHash := [Byte.xcc] |} ].

(** The index reports token 7 whatever token above 3 it is asked for. *)
Definition answer (token_id : Z) : Response :=
  if token_id =? 1 then Sim.asset_event "1" "0xaa"
  else if token_id =? 2 then Sim.server_error
  else if token_id =? 3 then Sim.asset_event "3" "0xcc"
  else Sim.asset_event "7" "0xdd".

Definition chain0 (supply0 : Z) : Sim.chain :=
  {| Sim.supply := supply0;
     Sim.head := 100;
     Sim.entries := transfers;
     Sim.index := answer;
     Sim.minted_per_sync := 0 |}.

Definition is_bad (bad : option Z) (k : Z) : bool :=
  match bad with
  | Some b => k =? b
  | None => false
  end.

Definition X (bad : option Z) : Externals Sim.chain Sim.db :=
  {| web3_version := "4.7.2";
     OPENSEA_API_KEY := "key";
     KudosContract_new := fun network c => (Return (Sim.kudos network), c);
     totalSupply := fun _ c => (Return (Sim.supply c), c);
     getBlock_latest_number := fun _ c => (Return (Sim.head c), c);
     createFilter := fun _ _ c => (Return 1, c);
     get_all_entries := fun _ c => (Return (Sim.entries c), c);
     hex := Sim.hex_of_bytes;
     requests_get := fun _ _ token_id _ c => (Return (answer token_id), c);
     Token_ids := map fst;
     sync_db := fun _ k txid c rows =>
       if is_bad bad k
       then (Raise (OtherError "BadFunctionCallOutput"), (c, rows))
       else (Return tt, (c, Sim.upsert k txid rows));
     sync_db_without_txid := fun _ k c rows =>
       if is_bad bad k
       then (Raise (OtherError "BadFunctionCallOutput"), (c, rows))
       else (Return tt, (c, Sim.upsert k PNone rows)) |}.

Definition world0 (supply0 : Z) (rows : Sim.db) : world Sim.chain Sim.db :=
  World (chain0 supply0) rows [].

End Scenario.

(** * Properties *)

(** ** Ranges *)

Lemma range_nil lo hi : hi <= lo -> range lo hi = [].
Proof.
  intros H. unfold range.
  replace (Z.to_nat (hi - lo)) with O by lia. reflexivity.
Qed.

Lemma range_cons lo hi : lo < hi -> range lo hi = lo :: range (lo + 1) hi.
Proof.
  intros H. unfold range.
  replace (Z.to_nat (hi - lo)) with (Datatypes.S (Z.to_nat (hi - (lo + 1)))) by lia.
  cbn [seq map]. f_equal; [lia|].
  rewrite <- seq_shift, map_map.
  apply map_ext. intros i. lia.
Qed.

Lemma In_range lo hi k : In k (range lo hi) <-> lo <= k < hi.
Proof.
  unfold range. rewrite in_map_iff. split.
  - intros (i & <- & Hi). apply in_seq in Hi. lia.
  - intros H. exists (Z.to_nat (k - lo)). split; [lia|].
    apply in_seq. lia.
Qed.

Lemma range_sorted lo hi : StronglySorted Z.lt (range lo hi).
Proof.
  remember (Z.to_nat (hi - lo)) as n eqn:Hn.
  revert lo Hn. induction n as [|n IH]; intros lo Hn.
  - rewrite range_nil by lia. constructor.
  - rewrite range_cons by lia. constructor.
    + apply IH. lia.
    + apply Forall_forall. intros k Hk. apply In_range in Hk. lia.
Qed.


Lemma range_app lo mid hi :
  lo <= mid <= hi -> range lo hi = range lo mid ++ range mid hi.
Proof.
  intros H.
  remember (Z.to_nat (mid - lo)) as n eqn:Hn.
  revert lo H Hn. induction n as [|n IH]; intros lo H Hn.
  - assert (mid = lo) by lia. subst mid.
    rewrite (range_nil lo lo) by lia. reflexivity.
  - rewrite (range_cons lo hi), (range_cons lo mid) by lia.
    cbn [app]. f_equal. apply IH; lia.
Qed.

(** ** The loop of the enumeration strategy *)

Section IdSync.

Context {R S : Type} (X : Externals R S).
Variable kudos_contract : KudosContract.
Variable end_id : Z.

(** Whatever the collaborators do, the loop ends within
    [max 1 (end_id - start_id + 1)] iterations: it upserts [start_id], then
    the ids that follow up to [end_id], and stops early only when an upsert
    raises. *)
Lemma id_loop_spec n : forall start_id (w : world R S) fuel,
  Z.to_nat (end_id - start_id) = n ->
  (n + 2 <= fuel)%nat ->
  exists o w' ids rest,
    while fuel more_kudos (id_sync_body X kudos_contract end_id)
      {| kudos_enum := start_id; more_kudos := true |} w = (o, w')
    /\ start_id :: range (start_id + 1) (end_id + 1) = (start_id :: ids) ++ rest
    /\ trace w' = trace w ++ map sync_db_without_txid_call (start_id :: ids)
    /\ ((exists l, o = Ok l /\ rest = [])
        \/ (exists e k r s, o = Exc e /\ In k (start_id :: ids)
              /\ fst (sync_db_without_txid X kudos_contract k r s) = Raise e)).
Proof.
  induction n as [|n IH]; intros start_id w fuel Hn Hfuel;
    (destruct fuel as [|fuel]; [lia|]);
    cbn [while more_kudos];
    unfold id_sync_body at 1, bind, store_call; cbn [kudos_enum more_kudos];
    destruct (sync_db_without_txid X kudos_contract start_id (remote w) (store w))
      as [[[]|e] [rem st]] eqn:Hup; cbn [of_result].
  - (* last iteration *)
    destruct (Z.gtb_spec (start_id + 1) end_id) as [_|Hle]; [|lia].
    destruct fuel as [|fuel]; [lia|]. cbn.
    exists (Ok {| kudos_enum := start_id + 1; more_kudos := false |}).
    eexists. exists [], []. repeat split.
    + rewrite range_nil by lia. reflexivity.
    + left. eauto.
  - exists (Exc e). eexists. exists [], (range (start_id + 1) (end_id + 1)).
    repeat split. right. exists e, start_id, (remote w), (store w).
    rewrite Hup. cbn. auto.
  - destruct (Z.gtb_spec (start_id + 1) end_id) as [Hgt|_]; [lia|].
    cbn [ret].
    destruct (IH (start_id + 1)
                (World rem st (trace w ++ [sync_db_without_txid_call start_id]))
                fuel ltac:(lia) ltac:(lia))
      as (o & w' & ids & rest & Hrun & Hids & Htr & Hout).
    exists o, w', (start_id + 1 :: ids), rest. repeat split.
    + exact Hrun.
    + rewrite (range_cons (start_id + 1)) by lia.
      cbn [app] in *. congruence.
    + rewrite Htr. cbn [trace map]. rewrite <- app_assoc. reflexivity.
    + destruct Hout as [Hok | (e & k & r & s & He & Hin & Hraise)]; [left; exact Hok|].
      right. exists e, k, r, s. cbn [In] in *. tauto.
  - exists (Exc e). eexists. exists [], (range (start_id + 1) (end_id + 1)).
    repeat split. right. exists e, start_id, (remote w), (store w).
    rewrite Hup. cbn. auto.
Qed.

End IdSync.

Section Enumeration.

Context {R S : Type} (X : Externals R S).

(** [id_sync] after its read of the total supply has returned [end_id]. *)
Lemma id_sync_unfold fuel kudos_contract start_id end_id (w : world R S) rem :
  totalSupply X kudos_contract (remote w) = (Return end_id, rem) ->
  id_sync X fuel kudos_contract start_id w =
    match while fuel more_kudos (id_sync_body X kudos_contract end_id)
            {| kudos_enum := start_id; more_kudos := true |}
            (World rem (store w) (trace w ++ [totalSupply_call])) with
    | (Ok _, w') => (Ok tt, w')
    | (Exc e, w') => (Exc e, w')
    | (OutOfFuel, w') => (OutOfFuel, w')
    end.
Proof.
  intros Hsupply. unfold id_sync, bind, remote_call at 1.
  rewrite Hsupply. cbn [of_result].
  destruct (while _ _ _ _ _) as [[l|e|] w']; reflexivity.
Qed.


(** C8. For every [start_id] and every [end_id] read once at the start,
    whatever the collaborators do afterwards (raise, or report a larger
    supply), [id_sync] ends within [end_id - start_id + 2] loop tests: it
    reads the total supply once, the ids it upserts strictly increase, form
    an initial part of [start_id, start_id + 1, ..., end_id] and never pass
    the larger of [start_id] and [end_id]. *)
Theorem id_sync_terminates :
  forall fuel kudos_contract start_id end_id (w : world R S) rem,
    totalSupply X kudos_contract (remote w) = (Return end_id, rem) ->
    (Z.to_nat (end_id - start_id) + 2 <= fuel)%nat ->
    exists o w' ids,
      id_sync X fuel kudos_contract start_id w = (o, w')
      /\ o <> OutOfFuel
      /\ trace w' =
           trace w ++ totalSupply_call :: map sync_db_without_txid_call ids
      /\ (exists rest, start_id :: range (start_id + 1) (end_id + 1) = ids ++ rest)
      /\ StronglySorted Z.lt ids
      /\ (forall k, In k ids -> start_id <= k <= Z.max start_id end_id)
      /\ (List.length ids <= Z.to_nat (end_id - start_id) + 1)%nat.
Proof.
  intros fuel kc start_id end_id w rem Hsupply Hfuel.
  rewrite (id_sync_unfold _ _ _ _ _ _ Hsupply).
  destruct (id_loop_spec X kc end_id _ start_id
              (World rem (store w) (trace w ++ [totalSupply_call])) fuel
              eq_refl Hfuel)
    as (o & w' & ids & rest & Hrun & Hids & Htr & Hout).
  rewrite Hrun.
  assert (Hsorted : StronglySorted Z.lt (start_id :: range (start_id + 1) (end_id + 1))).
  { constructor; [apply range_sorted|].
    apply Forall_forall. intros k Hk. apply In_range in Hk. lia. }
  assert (Hbound : forall k, In k (start_id :: range (start_id + 1) (end_id + 1)) ->
                             start_id <= k <= Z.max start_id end_id).
  { intros k [<-|Hk]; [lia|]. apply In_range in Hk. lia. }
  assert (Hlen : List.length (start_id :: range (start_id + 1) (end_id + 1))
                 = Datatypes.S (Z.to_nat (end_id - start_id))).
  { cbn [List.length]. unfold range. rewrite length_map, length_seq. lia. }
  rewrite Hids in Hsorted, Hbound, Hlen.
  assert (Hpre : StronglySorted Z.lt (start_id :: ids)).
  { clear - Hsorted. revert Hsorted. generalize (start_id :: ids) as l.
    induction l as [|a l IH]; intros H; [constructor|].
    cbn [app] in H. inversion H as [|? ? Hs Hall]; subst.
    constructor; [auto|].
    apply Forall_app in Hall. tauto. }
  assert (Hres : exists o', (match o with
                             | Ok _ => (Ok tt, w')
                             | Exc e => (Exc e, w')
                             | OutOfFuel => (OutOfFuel, w')
                             end) = (o', w') /\ o' <> @OutOfFuel unit).
  { destruct Hout as [(l & -> & _) | (e & _ & _ & _ & -> & _)];
      eexists; split; try reflexivity; discriminate. }
  destruct Hres as (o' & -> & Ho').
  exists o', w', (start_id :: ids).
  split; [reflexivity|]. split; [exact Ho'|].
  split; [|split; [|split; [|split]]].
  - rewrite Htr. cbn [trace]. rewrite <- app_assoc. reflexivity.
  - exists rest. exact Hids.
  - exact Hpre.
  - intros k Hk. apply Hbound, in_or_app. left. exact Hk.
  - rewrite length_app in Hlen. lia.
Qed.


End Enumeration.

(** ** The event-log and the external-index strategies *)

Section Strategies.

Context {R S : Type} (X : Externals R S).

(** C7. When the queried event set is empty, [filter_sync] returns normally,
    makes no upsert and leaves the store as it was: its only calls are the
    creation of the filter and the query of its entries. *)
Theorem filter_sync_empty_is_noop :
  forall kudos_contract fromBlock (w : world R S) event_filter rem1 rem2,
    createFilter X kudos_contract fromBlock (remote w) = (Return event_filter, rem1) ->
    get_all_entries X event_filter rem1 = (Return [], rem2) ->
    exists w',
      filter_sync X kudos_contract fromBlock w = (Ok tt, w')
      /\ store w' = store w
      /\ trace w' = trace w ++ [createFilter_call fromBlock; get_all_entries_call]
      /\ upserts (trace w') = upserts (trace w).
Proof.
  intros kc fromBlock w event_filter rem1 rem2 Hfilter Hentries.
  eexists. split.
  - unfold filter_sync, bind, remote_call. rewrite Hfilter. cbn.
    rewrite Hentries. cbn. reflexivity.
  - cbn [store trace]. split; [reflexivity|]. split.
    + rewrite <- app_assoc. reflexivity.
    + unfold upserts. rewrite !filter_app. cbn. rewrite !app_nil_r. reflexivity.
Qed.

Lemma for_each_app {A} (xs ys : list A) (body : A -> M R S unit) (w : world R S) :
  for_each (xs ++ ys) body w =
    match for_each xs body w with
    | (Ok _, w') => for_each ys body w'
    | other => other
    end.
Proof.
  revert w. induction xs as [|x xs IH]; intros w; cbn [app for_each].
  - reflexivity.
  - unfold bind. destruct (body x w) as [[[]|e|] w1]; auto.
Qed.

(** An iteration of [opensea_sync] that returns has made one request and
    one upsert. *)
Lemma opensea_sync_body_ok kudos_contract url token_id (w w' : world R S) :
  opensea_sync_body X kudos_contract url token_id w = (Ok tt, w') ->
  exists kudos_id txid,
    trace w' = trace w ++
      [requests_get_call url (kc_address kudos_contract) token_id (OPENSEA_API_KEY X);
       sync_db_call kudos_id txid].
Proof.
  unfold opensea_sync_body, bind, remote_call, lift, store_call.
  destruct (requests_get _ _ _ _ _ _) as [[r|e] rem]; cbn; [|discriminate].
  destruct (opensea_decode r) as [[kudos_id txid]|e]; cbn; [|discriminate].
  destruct (sync_db _ _ _ _ _ _) as [[[]|e] [rem' st]]; cbn; [|discriminate].
  intros [= <-]. exists kudos_id, txid. cbn. rewrite <- app_assoc. reflexivity.
Qed.

Lemma opensea_loop_upserts kudos_contract url ids : forall (w w' : world R S),
  for_each ids (opensea_sync_body X kudos_contract url) w = (Ok tt, w') ->
  List.length (upserts (trace w')) =
    (List.length (upserts (trace w)) + List.length ids)%nat.
Proof.
  induction ids as [|k ids IH]; intros w w'; cbn [for_each].
  - intros [= <-]. cbn. lia.
  - unfold bind at 1.
    destruct (opensea_sync_body X kudos_contract url k w) as [[[]|e|] w1] eqn:Hbody;
      try discriminate.
    intros Hrest. apply IH in Hrest.
    apply opensea_sync_body_ok in Hbody as (kudos_id & txid & Htr).
    rewrite Hrest, Htr. unfold upserts. rewrite filter_app, length_app.
    cbn. lia.
Qed.

(** The ways a request fails: a status in the 4xx or 5xx range, a body that
    is not a JSON document, a payload without the expected fields. *)
Lemma opensea_decode_bad_status r :
  400 <= status_code r < 600 ->
  opensea_decode r = Raise (HTTPError (status_code r)).
Proof.
  intros H. unfold opensea_decode, raise_for_status.
  destruct (Z.leb_spec 400 (status_code r)); [|lia].
  destruct (Z.ltb_spec (status_code r) 600); [|lia].
  reflexivity.
Qed.

Lemma opensea_decode_not_json r :
  raise_for_status r = Return tt -> body r = None ->
  opensea_decode r = Raise (ValueError "JSONDecodeError").
Proof.
  intros Hstatus Hbody. unfold opensea_decode, json.
  rewrite Hstatus, Hbody. reflexivity.
Qed.

Lemma opensea_decode_no_events r d :
  raise_for_status r = Return tt -> body r = Some (PDict d) ->
  dict_get d "asset_events" = None ->
  opensea_decode r = Raise (KeyError "asset_events").
Proof.
  intros Hstatus Hbody Hkey. unfold opensea_decode, json.
  rewrite Hstatus, Hbody. cbn. rewrite Hkey. reflexivity.
Qed.

Lemma opensea_decode_empty_events r d :
  raise_for_status r = Return tt -> body r = Some (PDict d) ->
  dict_get d "asset_events" = Some (PList []) ->
  opensea_decode r = Raise IndexError.
Proof.
  intros Hstatus Hbody Hkey. unfold opensea_decode, json.
  rewrite Hstatus, Hbody. cbn. rewrite Hkey. reflexivity.
Qed.

(** [opensea_decode] reads the token id through [asset_token_id]. *)
Lemma opensea_decode_asset_token_id r :
  opensea_decode r =
    rbind (raise_for_status r) (fun _ =>
    rbind (asset_token_id r) (fun token =>
    rbind (rbind (json r) (fun j =>
           rbind (getitem j "asset_events") (fun evs =>
           rbind (getitem0 evs) (fun ev =>
           rbind (getitem ev "transaction") (fun t =>
           getitem t "transaction_hash"))))) (fun transaction_hash =>
    rbind (int token) (fun kudos_id =>
    Return (kudos_id, transaction_hash))))).
Proof. reflexivity. Qed.

(** C5. When the iterations for the ids below [k] have gone through and the
    request for [k] fails (the request raises, the status is not a success,
    or the expected fields cannot be read from the payload), [opensea_sync]
    ends with that exception right after the request for [k]: nothing is
    upserted for [k], and no later id is requested or upserted.  A token id
    that comes as a string is taken to be an ASCII string, the scope of
    [int]. *)
Theorem opensea_sync_aborts_on_failed_request :
  forall kudos_contract start_id end_id k url (w w_k : world R S) rem res rem_k e,
    opensea_url (kc_network kudos_contract) = Return url ->
    totalSupply X kudos_contract (remote w) = (Return end_id, rem) ->
    start_id <= k <= end_id ->
    for_each (range start_id k) (opensea_sync_body X kudos_contract url)
      (World rem (store w) (trace w ++ [totalSupply_call])) = (Ok tt, w_k) ->
    requests_get X url (kc_address kudos_contract) k (OPENSEA_API_KEY X)
      (remote w_k) = (res, rem_k) ->
    (forall r s, res = Return r -> asset_token_id r = Return (PStr s) ->
       is_ascii s = true) ->
    rbind res opensea_decode = Raise e ->
    opensea_sync X kudos_contract start_id w =
      (Exc e,
       World rem_k (store w_k)
         (trace w_k ++
          [requests_get_call url (kc_address kudos_contract) k (OPENSEA_API_KEY X)]))
    /\ List.length (upserts (trace w_k)) =
         (List.length (upserts (trace w)) + Z.to_nat (k - start_id))%nat.
Proof.
  intros kc start_id end_id k url w w_k rem res rem_k e
         Hurl Hsupply Hk Hbefore Hreq _ Hfail.
  split.
  - unfold opensea_sync, bind at 1, lift at 1. rewrite Hurl. cbn [of_result].
    unfold bind at 1, remote_call at 1. rewrite Hsupply. cbn [of_result].
    rewrite (range_app start_id k (end_id + 1)) by lia.
    rewrite for_each_app, Hbefore.
    rewrite (range_cons k) by lia. cbn [for_each].
    unfold bind at 1, opensea_sync_body at 1, bind at 1, remote_call at 1.
    rewrite Hreq.
    destruct res as [r|e']; cbn in Hfail |- *.
    + unfold bind, lift. rewrite Hfail. reflexivity.
    + congruence.
  - apply opensea_loop_upserts in Hbefore. cbn [trace] in Hbefore.
    rewrite Hbefore. unfold upserts. rewrite filter_app, length_app.
    cbn [List.filter is_upsert List.length].
    unfold range. rewrite length_map, length_seq. lia.
Qed.

End Strategies.

(** ** The coordinator *)

Lemma fold_left_max_spec l : forall a,
  (a <= fold_left Z.max l a)
  /\ (forall i, In i l -> i <= fold_left Z.max l a)
  /\ (fold_left Z.max l a = a \/ In (fold_left Z.max l a) l).
Proof.
  induction l as [|x l IH]; intros a; cbn [fold_left In].
  - split; [lia|]. split; [tauto|]. left. reflexivity.
  - destruct (IH (Z.max a x)) as (Hge & Hall & Hin).
    split; [lia|]. split.
    + intros i [<-|Hi]; [lia|auto].
    + destruct Hin as [Heq|Hin]; [|tauto].
      rewrite Heq. destruct (Z.max_spec a x) as [[_ ->]|[_ ->]]; tauto.
Qed.

(** [Max('id')] is the largest id of a table that has rows. *)
Lemma aggregate_Max_spec ids M :
  In M ids -> (forall i, In i ids -> i <= M) -> aggregate_Max ids = PInt M.
Proof.
  destruct ids as [|a l]; [intros []|]. intros HM Hall.
  cbn [aggregate_Max]. f_equal.
  destruct (fold_left_max_spec l a) as (Hge & Hle & Hin).
  assert (Hm : In (fold_left Z.max l a) (a :: l)).
  { destruct Hin as [->|Hin]; [left; reflexivity | right; exact Hin]. }
  apply Hall in Hm.
  destruct HM as [<-|HM]; [lia|]. apply Hle in HM. lia.
Qed.

Section Coordinator.

Context {R S : Type} (X : Externals R S).

Ltac enter_handle Hnew :=
  unfold handle;
  cbn [opt_network opt_syncmethod opt_start opt_rewind opt_catchup];
  unfold bind at 1, remote_call at 1; rewrite Hnew; cbn [of_result].

(** C4. When the largest id of the store is [M], a [--catchup] run of the
    enumeration or of the external-index strategy is that strategy started
    at [M] itself, right after the query of the largest id. *)
Theorem catchup_starts_at_max_id :
  forall fuel o (w : world R S) kudos_contract rem M,
    truthy_str (opt_start o) = false ->
    truthy_int (opt_rewind o) = false ->
    opt_catchup o = true ->
    opt_syncmethod o <> by_filter ->
    KudosContract_new X (network_name (opt_network o)) (remote w)
      = (Return kudos_contract, rem) ->
    In M (Token_ids X (store w)) ->
    (forall i, In i (Token_ids X (store w)) -> i <= M) ->
    handle X fuel o w =
      (match opt_syncmethod o with
       | by_opensea => opensea_sync X kudos_contract M
       | _ => id_sync X fuel kudos_contract M
       end)
        (World rem (store w)
           (trace w ++ [KudosContract_call (network_name (opt_network o));
                        aggregate_Max_id_call])).
Proof.
  intros fuel [network syncmethod start rewind catchup] w kc rem M.
  cbn [opt_network opt_syncmethod opt_start opt_rewind opt_catchup].
  intros Hstart Hrewind -> Hmethod Hnew HM Hall.
  enter_handle Hnew. rewrite Hstart, Hrewind.
  destruct syncmethod; [congruence| |];
    unfold bind at 1; unfold bind at 1, store_query at 1;
    cbn [store remote trace];
    rewrite (aggregate_Max_spec _ M HM Hall);
    unfold ret; unfold bind at 1, lift at 1; cbn [read_local rbind int of_result];
    rewrite <- app_assoc; reflexivity.
Qed.

(** C9. When the store has no rows, a [--catchup] run of the enumeration or
    of the external-index strategy gets [None] as its start, and ends with a
    [TypeError] at [int(start_id)]: the strategy is not entered, no upsert is
    made, the store is as it was. *)
Theorem catchup_on_empty_store_raises_TypeError :
  forall fuel o (w : world R S) kudos_contract rem,
    truthy_str (opt_start o) = false ->
    truthy_int (opt_rewind o) = false ->
    opt_catchup o = true ->
    opt_syncmethod o <> by_filter ->
    KudosContract_new X (network_name (opt_network o)) (remote w)
      = (Return kudos_contract, rem) ->
    Token_ids X (store w) = [] ->
    aggregate_Max (Token_ids X (store w)) = PNone
    /\ handle X fuel o w =
         (Exc TypeError,
          World rem (store w)
            (trace w ++ [KudosContract_call (network_name (opt_network o));
                         aggregate_Max_id_call])).
Proof.
  intros fuel [network syncmethod start rewind catchup] w kc rem.
  cbn [opt_network opt_syncmethod opt_start opt_rewind opt_catchup].
  intros Hstart Hrewind -> Hmethod Hnew Hempty.
  split; [rewrite Hempty; reflexivity|].
  enter_handle Hnew. rewrite Hstart, Hrewind.
  destruct syncmethod; [congruence| |];
    unfold bind at 1; unfold bind at 1, store_query at 1;
    cbn [store remote trace];
    rewrite Hempty; cbn [aggregate_Max];
    unfold ret; unfold bind at 1, lift at 1; cbn [read_local rbind int of_result];
    rewrite <- app_assoc; reflexivity.
Qed.

(** C2, as the code has it. For every rewind [Rw] other than 0 and every
    supply [H] the ledger reports, the enumeration and the external-index
    strategies are started at [H - Rw]; for every head block [Hb], the
    event-log strategy is started at block [Hb - Rw] when the web3 client is
    version 4.7.2, and refused with a [RuntimeError] otherwise.  The sign
    of the start is not looked at: the strategy is entered with [H - Rw] also
    when [Rw > H]. *)
Theorem rewind_resolution :
  forall fuel o (w : world R S) kudos_contract rem Rw H rem_s Hb rem_b,
    truthy_str (opt_start o) = false ->
    opt_rewind o = Some Rw ->
    Rw <> 0 ->
    KudosContract_new X (network_name (opt_network o)) (remote w)
      = (Return kudos_contract, rem) ->
    totalSupply X kudos_contract rem = (Return H, rem_s) ->
    getBlock_latest_number X kudos_contract rem = (Return Hb, rem_b) ->
    let new := KudosContract_call (network_name (opt_network o)) in
    handle X fuel o w =
      match opt_syncmethod o with
      | by_id =>
          id_sync X fuel kudos_contract (H - Rw)
            (World rem_s (store w) (trace w ++ [new; totalSupply_call]))
      | by_opensea =>
          opensea_sync X kudos_contract (H - Rw)
            (World rem_s (store w) (trace w ++ [new; totalSupply_call]))
      | by_filter =>
          if (web3_version X =? "4.7.2")%string then
            filter_sync X kudos_contract (PInt (Hb - Rw))
              (World rem_b (store w) (trace w ++ [new; getBlock_call]))
          else
            (Exc (RuntimeError
               "This option is unstable if not on web3py 4.7.2.  May crash testrpc."),
             World rem (store w) (trace w ++ [new]))
      end.
Proof.
  intros fuel [network syncmethod start rewind catchup] w kc rem Rw H rem_s Hb rem_b.
  cbn [opt_network opt_syncmethod opt_start opt_rewind opt_catchup].
  intros Hstart -> HRw Hnew Hsupply Hhead.
  assert (Htruthy : truthy_int (Some Rw) = true).
  { cbn. destruct (Z.eqb_spec Rw 0); [contradiction|reflexivity]. }
  enter_handle Hnew. rewrite Hstart, Htruthy.
  destruct syncmethod.
  - destruct (web3_version X =? "4.7.2")%string; cbn [negb].
    + unfold bind at 1; unfold bind at 1, remote_call at 1.
      cbn [store remote trace]. rewrite Hhead. cbn [of_result the_int].
      unfold ret; unfold bind at 1, lift at 1. cbn [read_local of_result].
      rewrite <- app_assoc. reflexivity.
    + reflexivity.
  - unfold bind at 1; unfold bind at 1, remote_call at 1.
    cbn [store remote trace]. rewrite Hsupply. cbn [of_result the_int].
    unfold ret; unfold bind at 1, lift at 1. cbn [read_local rbind int of_result].
    rewrite <- app_assoc. reflexivity.
  - unfold bind at 1; unfold bind at 1, remote_call at 1.
    cbn [store remote trace]. rewrite Hsupply. cbn [of_result the_int].
    unfold ret; unfold bind at 1, lift at 1. cbn [read_local rbind int of_result].
    rewrite <- app_assoc. reflexivity.
Qed.


(** C3, as the code has it. The event-log strategy with [--catchup] is
    refused with a [ValueError] right after the contract handle is built.
    The external-index strategy on localhost always ends with an exception,
    with no request to the index, no upsert and the store as it was; but the
    network is looked at inside [opensea_sync] only, after the start has been
    resolved: with [--rewind] the total supply is queried on the ledger
    first, with [--catchup] the largest id is queried in the store first,
    and only then is the [RuntimeError] raised (or the exception of the
    resolution, when that one fails).  [--start] is taken to be an ASCII
    string, the scope of [int]. *)
Theorem invalid_configuration_raises_before_any_upsert :
  forall fuel network start rewind catchup (w : world R S)
         kudos_contract rem local_contract rem_l,
    KudosContract_new X (network_name network) (remote w)
      = (Return kudos_contract, rem) ->
    KudosContract_new X "localhost" (remote w) = (Return local_contract, rem_l) ->
    kc_network local_contract = "localhost" ->
    is_ascii (the_str start) = true ->
    handle X fuel
      {| opt_network := network; opt_syncmethod := by_filter;
         opt_start := None; opt_rewind := None; opt_catchup := true |} w
      = (Exc (ValueError "--catchup option is not valid for filter syncing"),
         World rem (store w) (trace w ++ [KudosContract_call (network_name network)]))
    /\ handle X fuel
         {| opt_network := localhost; opt_syncmethod := by_opensea;
            opt_start := start; opt_rewind := rewind; opt_catchup := catchup |} w
       = (let unsupported :=
            RuntimeError
              "The Open Sea API is only supported for contracts on rinkeby and mainnet." in
          let new := KudosContract_call "localhost" in
          if truthy_str start then
            (Exc match int_of_str (the_str start) with
                 | Return _ => unsupported
                 | Raise e => e
                 end,
             World rem_l (store w) (trace w ++ [new]))
          else if truthy_int rewind then
            (Exc match fst (totalSupply X local_contract rem_l) with
                 | Return _ => unsupported
                 | Raise e => e
                 end,
             World (snd (totalSupply X local_contract rem_l)) (store w)
               (trace w ++ [new; totalSupply_call]))
          else if catchup then
            (Exc match Token_ids X (store w) with
                 | [] => TypeError
                 | _ :: _ => unsupported
                 end,
             World rem_l (store w) (trace w ++ [new; aggregate_Max_id_call]))
          else
            (Exc (UnboundLocalError "start_id"),
             World rem_l (store w) (trace w ++ [new]))).
Proof.
  intros fuel network start rewind catchup w kc rem lc rem_l Hnew Hlocal Hnet _.
  split.
  - enter_handle Hnew. reflexivity.
  - assert (Hsync : forall n (w1 : world R S),
              opensea_sync X lc n w1 =
                (Exc (RuntimeError
                   "The Open Sea API is only supported for contracts on rinkeby and mainnet."),
                 w1)).
    { intros n w1. unfold opensea_sync, bind, lift. rewrite Hnet. reflexivity. }
    unfold handle;
      cbn [opt_network opt_syncmethod opt_start opt_rewind opt_catchup network_name];
      unfold bind at 1, remote_call at 1; rewrite Hlocal; cbn [of_result].
    cbv zeta.
    destruct (truthy_str start) eqn:Hstart.
    + unfold bind at 1; unfold ret at 1; unfold bind at 1, lift at 1.
      cbn [read_local rbind int].
      destruct (int_of_str (the_str start)) as [n|e]; cbn [of_result].
      * apply Hsync.
      * reflexivity.
    + destruct (truthy_int rewind) eqn:Hrewind.
      * unfold bind at 1; unfold bind at 1, remote_call at 1.
        cbn [store remote trace].
        destruct (totalSupply X lc rem_l) as [[H|e] rem_s];
          cbn [of_result fst snd].
        -- unfold ret; unfold bind at 1, lift at 1.
           cbn [read_local rbind int of_result].
           rewrite Hsync, <- app_assoc. reflexivity.
        -- rewrite <- app_assoc. reflexivity.
      * destruct catchup.
        -- unfold bind at 1; unfold bind at 1, store_query at 1.
           cbn [store remote trace].
           unfold ret; unfold bind at 1, lift at 1. cbn [read_local rbind].
           destruct (Token_ids X (store w)) as [|i ids];
             cbn [aggregate_Max int of_result].
           ++ rewrite <- app_assoc. reflexivity.
           ++ rewrite Hsync, <- app_assoc. reflexivity.
        -- reflexivity.
Qed.

End Coordinator.

(** ** Runs in the concrete world *)

Example int_of_str_examples :
  int_of_str "12" = Return 12
  /\ int_of_str " -7 " = Return (-7)
  /\ int_of_str "1_000" = Return 1000
  /\ int_of_str "earliest" =
       Raise (ValueError "invalid literal for int() with base 10")
  /\ int_of_str "" = Raise (ValueError "invalid literal for int() with base 10").
Proof. repeat split. Qed.

(** The separators 28 to 31 are no whitespace for [int()]. *)
Example int_of_str_separator :
  int_of_str (String (ascii_of_nat 28) "1") =
    Raise (ValueError "invalid literal for int() with base 10")
  /\ int_of_str (String (ascii_of_nat 11) "1") = Return 1.
Proof. split; reflexivity. Qed.

Example isdigit_examples :
  isdigit "100" = true /\ isdigit "" = false /\ isdigit "latest" = false
  /\ isdigit "-1" = false.
Proof. repeat split. Qed.

(** The supply is 3 when [id_sync] reads it and 6 when it returns: the ids
    upserted are 1, 2 and 3. *)
Example id_sync_ignores_later_supply :
  fst (id_sync (Sim.X "4.7.2") 4 (Sim.kudos "mainnet") 1 (Sim.world0 3 1 []))
    = Ok tt
  /\ trace (snd (id_sync (Sim.X "4.7.2") 4 (Sim.kudos "mainnet") 1
                  (Sim.world0 3 1 []))) =
       [totalSupply_call; sync_db_without_txid_call 1;
        sync_db_without_txid_call 2; sync_db_without_txid_call 3]
  /\ Sim.supply (remote (snd (id_sync (Sim.X "4.7.2") 4 (Sim.kudos "mainnet") 1
                               (Sim.world0 3 1 [])))) = 6.
Proof. repeat split. Qed.

(** With too small a bound the model reports it instead of a result. *)
Example id_sync_out_of_fuel :
  fst (id_sync (Sim.X "4.7.2") 3 (Sim.kudos "mainnet") 1 (Sim.world0 3 0 []))
    = OutOfFuel.
Proof. reflexivity. Qed.

(** C2 fails as stated: with supply 1 and [--rewind 3] the start is [-2];
    it is not refused, the enumeration strategy is entered with it and
    upserts the ids -2, -1, 0 and 1. *)
Lemma rewind_beyond_supply_enters_strategy :
  3 > 1
  /\ fst Sim.rewind_beyond_supply = Ok tt
  /\ trace (snd Sim.rewind_beyond_supply) =
       [KudosContract_call "mainnet"; totalSupply_call; totalSupply_call;
        sync_db_without_txid_call (-2); sync_db_without_txid_call (-1);
        sync_db_without_txid_call 0; sync_db_without_txid_call 1]
  /\ store (snd Sim.rewind_beyond_supply) =
       [(-2, PNone); (-1, PNone); (0, PNone); (1, PNone)].
Proof. repeat split. Qed.

(** C3 fails as stated: with the external-index strategy on localhost and
    [--rewind 1], the total supply is queried on the ledger before the
    configuration error is raised. *)
Lemma opensea_on_localhost_queries_ledger_first :
  fst Sim.opensea_on_localhost =
    Exc (RuntimeError
      "The Open Sea API is only supported for contracts on rinkeby and mainnet.")
  /\ trace (snd Sim.opensea_on_localhost) =
       [KudosContract_call "localhost"; totalSupply_call].
Proof. split; reflexivity. Qed.



(** The enumeration from 1 on a ledger whose supply, 3 when it is read,
    grows by one with every upsert. *)
Lemma id_sync_terminates_witness :
  exists o w' ids,
    id_sync (Sim.X "4.7.2") 4 (Sim.kudos "mainnet") 1 (Sim.world0 3 1 [])
      = (o, w')
    /\ o <> OutOfFuel
    /\ trace w' = [] ++ totalSupply_call :: map sync_db_without_txid_call ids
    /\ (exists rest, 1 :: range (1 + 1) (3 + 1) = ids ++ rest)
    /\ StronglySorted Z.lt ids
    /\ (forall k, In k ids -> 1 <= k <= Z.max 1 3)
    /\ (List.length ids <= Z.to_nat (3 - 1) + 1)%nat.
Proof.
  apply (id_sync_terminates (Sim.X "4.7.2") 4 (Sim.kudos "mainnet")
           1 3 (Sim.world0 3 1 []) (Sim.chain0 3 1)).
  - reflexivity.
  - cbn. lia.
Defined.


(** The event-log strategy on a ledger without transfer events. *)
Lemma filter_sync_empty_is_noop_witness :
  exists w',
    filter_sync (Sim.X "4.7.2") (Sim.kudos "mainnet") (PStr "latest")
      (Sim.world0 3 0 [(1, PNone)]) = (Ok tt, w')
    /\ store w' = [(1, PNone)]
    /\ trace w' = [] ++ [createFilter_call (PStr "latest"); get_all_entries_call]
    /\ upserts (trace w') = upserts [].
Proof.
  apply (filter_sync_empty_is_noop (Sim.X "4.7.2") (Sim.kudos "mainnet")
           (PStr "latest") (Sim.world0 3 0 [(1, PNone)]) 1
           (Sim.chain0 3 0) (Sim.chain0 3 0)).
  - reflexivity.
  - reflexivity.
Defined.

(** The external index answers for token 1 and fails with status 500 for
    token 2: the run from 1 on a ledger of supply 3 stops there, with the
    one upsert of the first iteration. *)
Lemma opensea_sync_aborts_on_failed_request_witness :
  opensea_sync (Sim.X "4.7.2") (Sim.kudos "rinkeby") 1 (Sim.world0 3 0 []) =
    (Exc (HTTPError 500),
     World (Sim.chain0 3 0) [(1, PStr "0xaa")]
       ([totalSupply_call;
         requests_get_call "https://rinkeby-api.opensea.io/api/v1/events"
           "0xkudos" 1 "key";
         sync_db_call 1 (PStr "0xaa")] ++
        [requests_get_call "https://rinkeby-api.opensea.io/api/v1/events"
           "0xkudos" 2 "key"]))
  /\ List.length
       (upserts
          [totalSupply_call;
           requests_get_call "https://rinkeby-api.opensea.io/api/v1/events"
             "0xkudos" 1 "key";
           sync_db_call 1 (PStr "0xaa")])
     = (List.length (upserts []) + Z.to_nat (2 - 1))%nat.
Proof.
  apply (opensea_sync_aborts_on_failed_request (Sim.X "4.7.2")
           (Sim.kudos "rinkeby") 1 3 2
           "https://rinkeby-api.opensea.io/api/v1/events"
           (Sim.world0 3 0 [])
           (World (Sim.chain0 3 0) [(1, PStr "0xaa")]
              [totalSupply_call;
               requests_get_call "https://rinkeby-api.opensea.io/api/v1/events"
                 "0xkudos" 1 "key";
               sync_db_call 1 (PStr "0xaa")])
           (Sim.chain0 3 0) (Return Sim.server_error) (Sim.chain0 3 0)
           (HTTPError 500)).
  - reflexivity.
  - reflexivity.
  - lia.
  - reflexivity.
  - reflexivity.
  - intros r s [= <-] Htoken. discriminate Htoken.
  - reflexivity.
Defined.

(** [--catchup] with the enumeration strategy on a store whose ids are 2, 7
    and 4. *)
Lemma catchup_starts_at_max_id_witness :
  handle (Sim.X "4.7.2") 4 (Sim.options rinkeby by_id None None true)
    (Sim.world0 3 0 [(2, PNone); (7, PNone); (4, PNone)]) =
  id_sync (Sim.X "4.7.2") 4 (Sim.kudos "rinkeby") 7
    (World (Sim.chain0 3 0) [(2, PNone); (7, PNone); (4, PNone)]
       ([] ++ [KudosContract_call "rinkeby"; aggregate_Max_id_call])).
Proof.
  apply (catchup_starts_at_max_id (Sim.X "4.7.2") 4
           (Sim.options rinkeby by_id None None true)
           (Sim.world0 3 0 [(2, PNone); (7, PNone); (4, PNone)])
           (Sim.kudos "rinkeby") (Sim.chain0 3 0) 7).
  - reflexivity.
  - reflexivity.
  - reflexivity.
  - discriminate.
  - reflexivity.
  - cbn. tauto.
  - cbn. intros i [<-|[<-|[<-|[]]]]; lia.
Defined.

(** [--catchup] with the enumeration strategy on an empty store. *)
Lemma catchup_on_empty_store_raises_TypeError_witness :
  aggregate_Max [] = PNone
  /\ handle (Sim.X "4.7.2") 4 (Sim.options rinkeby by_id None None true)
       (Sim.world0 3 0 []) =
     (Exc TypeError,
      World (Sim.chain0 3 0) []
        ([] ++ [KudosContract_call "rinkeby"; aggregate_Max_id_call])).
Proof.
  apply (catchup_on_empty_store_raises_TypeError (Sim.X "4.7.2") 4
           (Sim.options rinkeby by_id None None true) (Sim.world0 3 0 [])
           (Sim.kudos "rinkeby") (Sim.chain0 3 0)).
  - reflexivity.
  - reflexivity.
  - reflexivity.
  - discriminate.
  - reflexivity.
  - reflexivity.
Defined.

(** [--rewind 2] with the enumeration strategy on a ledger of supply 5. *)
Lemma rewind_resolution_witness :
  handle (Sim.X "4.7.2") 4 (Sim.options mainnet by_id None (Some 2) false)
    (Sim.world0 5 0 []) =
  id_sync (Sim.X "4.7.2") 4 (Sim.kudos "mainnet") (5 - 2)
    (World (Sim.chain0 5 0) []
       ([] ++ [KudosContract_call "mainnet"; totalSupply_call])).
Proof.
  apply (rewind_resolution (Sim.X "4.7.2") 4
           (Sim.options mainnet by_id None (Some 2) false) (Sim.world0 5 0 [])
           (Sim.kudos "mainnet") (Sim.chain0 5 0) 2 5 (Sim.chain0 5 0)
           100 (Sim.chain0 5 0)).
  - reflexivity.
  - reflexivity.
  - lia.
  - reflexivity.
  - reflexivity.
  - reflexivity.
Defined.


(** [--catchup] with the event-log strategy on mainnet, and [--rewind 1]
    with the external-index strategy on localhost: the supply is read before
    the refusal. *)
Lemma invalid_configuration_raises_before_any_upsert_witness :
  handle (Sim.X "4.7.2") 4
    {| opt_network := mainnet; opt_syncmethod := by_filter;
       opt_start := None; opt_rewind := None; opt_catchup := true |}
    (Sim.world0 3 0 [])
    = (Exc (ValueError "--catchup option is not valid for filter syncing"),
       World (Sim.chain0 3 0) [] ([] ++ [KudosContract_call "mainnet"]))
  /\ handle (Sim.X "4.7.2") 4
       {| opt_network := localhost; opt_syncmethod := by_opensea;
          opt_start := None; opt_rewind := Some 1; opt_catchup := false |}
       (Sim.world0 3 0 [])
     = (Exc (RuntimeError
          "The Open Sea API is only supported for contracts on rinkeby and mainnet."),
        World (Sim.chain0 3 0) []
          ([] ++ [KudosContract_call "localhost"; totalSupply_call])).
Proof.
  apply (invalid_configuration_raises_before_any_upsert (Sim.X "4.7.2") 4
           mainnet None (Some 1) false (Sim.world0 3 0 [])
           (Sim.kudos "mainnet") (Sim.chain0 3 0)
           (Sim.kudos "localhost") (Sim.chain0 3 0)).
  - reflexivity.
  - reflexivity.
  - reflexivity.
  - reflexivity.
Defined.

(** * Further properties of the strategies *)

Section MoreStrategies.

Context {R S : Type} (X : Externals R S).

(** [filter_sync] once the filter is created and its entries are read. *)
Lemma filter_sync_unfold kudos_contract fromBlock (w : world R S)
    event_filter rem1 entries rem2 :
  createFilter X kudos_contract fromBlock (remote w) = (Return event_filter, rem1) ->
  get_all_entries X event_filter rem1 = (Return entries, rem2) ->
  filter_sync X kudos_contract fromBlock w =
    for_each entries (upsert_event X kudos_contract)
      (World rem2 (store w)
         (trace w ++ [createFilter_call fromBlock; get_all_entries_call])).
Proof.
  intros Hfilter Hentries.
  unfold filter_sync, bind at 1, remote_call at 1. rewrite Hfilter. cbn [of_result].
  unfold bind at 1, remote_call at 1. cbn [remote store trace].
  rewrite Hentries. cbn [of_result]. rewrite <- app_assoc. reflexivity.
Qed.



(** X2. When the upsert of an entry raises, [filter_sync] ends with that
    exception right after that call: the entries that follow are not
    applied. *)
Theorem filter_sync_aborts_on_failed_upsert :
  forall kudos_contract fromBlock (w w_k : world R S) event_filter rem1 rem2
         before event after e rem_k st_k,
    createFilter X kudos_contract fromBlock (remote w) = (Return event_filter, rem1) ->
    get_all_entries X event_filter rem1 = (Return (before ++ event :: after), rem2) ->
    for_each before (upsert_event X kudos_contract)
      (World rem2 (store w)
         (trace w ++ [createFilter_call fromBlock; get_all_entries_call]))
      = (Ok tt, w_k) ->
    sync_db X kudos_contract (_tokenId event)
      (PStr (hex X (transactionHash event))) (remote w_k) (store w_k)
      = (Raise e, (rem_k, st_k)) ->
    filter_sync X kudos_contract fromBlock w =
      (Exc e,
       World rem_k st_k
         (trace w_k ++ [sync_db_call (_tokenId event)
                          (PStr (hex X (transactionHash event)))])).
Proof.
  intros kc fromBlock w w_k event_filter rem1 rem2 before event after e rem_k st_k
         Hfilter Hentries Hbefore Hraise.
  rewrite (filter_sync_unfold _ _ _ _ _ _ _ Hfilter Hentries).
  rewrite for_each_app, Hbefore. cbn [for_each].
  unfold bind, upsert_event at 1, store_call. rewrite Hraise. reflexivity.
Qed.

(** Iterations of [id_sync] that go through, up to an id [k] that the loop
    reaches. *)
Lemma id_loop_reaches kudos_contract end_id k n :
  forall start_id (w w_k : world R S) fuel,
    Z.to_nat (k - start_id) = n ->
    start_id <= k <= Z.max start_id end_id ->
    for_each (range start_id k) (upsert_id X kudos_contract) w = (Ok tt, w_k) ->
    (n <= fuel)%nat ->
    while fuel more_kudos (id_sync_body X kudos_contract end_id)
      {| kudos_enum := start_id; more_kudos := true |} w =
    while (fuel - n) more_kudos (id_sync_body X kudos_contract end_id)
      {| kudos_enum := k; more_kudos := true |} w_k.
Proof.
  induction n as [|n IH]; intros start_id w w_k fuel Hn Hk Hbefore Hfuel.
  - assert (k = start_id) by lia. subst k.
    rewrite range_nil in Hbefore by lia. cbn in Hbefore.
    injection Hbefore as <-. rewrite Nat.sub_0_r. reflexivity.
  - destruct fuel as [|fuel]; [lia|].
    rewrite (range_cons start_id k) in Hbefore by lia.
    cbn [for_each] in Hbefore. unfold bind at 1 in Hbefore.
    cbn [while more_kudos Nat.sub].
    unfold id_sync_body at 1, bind at 1 2. cbn [kudos_enum more_kudos].
    fold (upsert_id X kudos_contract start_id).
    destruct (upsert_id X kudos_contract start_id w) as [[[]|e|] w1];
      try discriminate.
    destruct (Z.gtb_spec (start_id + 1) end_id) as [Hgt|_]; [lia|].
    cbn [ret]. apply IH; [lia|lia|exact Hbefore|lia].
Qed.

(** X7. When the upserts of the ids below [k] have gone through and the one
    of [k], an id the loop reaches, raises, [id_sync] ends with that exception
    right after that call: no later id is upserted. *)
Theorem id_sync_aborts_on_failed_upsert :
  forall fuel kudos_contract start_id end_id k (w w_k : world R S) rem e rem_k st_k,
    totalSupply X kudos_contract (remote w) = (Return end_id, rem) ->
    start_id <= k <= Z.max start_id end_id ->
    for_each (range start_id k) (upsert_id X kudos_contract)
      (World rem (store w) (trace w ++ [totalSupply_call])) = (Ok tt, w_k) ->
    sync_db_without_txid X kudos_contract k (remote w_k) (store w_k)
      = (Raise e, (rem_k, st_k)) ->
    (Z.to_nat (k - start_id) + 1 <= fuel)%nat ->
    id_sync X fuel kudos_contract start_id w =
      (Exc e, World rem_k st_k (trace w_k ++ [sync_db_without_txid_call k])).
Proof.
  intros fuel kc start_id end_id k w w_k rem e rem_k st_k
         Hsupply Hk Hbefore Hraise Hfuel.
  rewrite (id_sync_unfold X _ _ _ _ _ _ Hsupply).
  rewrite (id_loop_reaches kc end_id k _ start_id _ w_k fuel eq_refl Hk Hbefore)
    by lia.
  destruct (fuel - Z.to_nat (k - start_id))%nat as [|fuel'] eqn:Hleft; [lia|].
  cbn [while more_kudos].
  unfold id_sync_body at 1, bind, store_call. cbn [kudos_enum].
  rewrite Hraise. reflexivity.
Qed.

End MoreStrategies.

Section ExternalIndex.

Context {R S : Type} (X : Externals R S).

(** [opensea_sync] once the endpoint is chosen and the supply is read. *)
Lemma opensea_sync_unfold kudos_contract start_id end_id url (w : world R S) rem :
  opensea_url (kc_network kudos_contract) = Return url ->
  totalSupply X kudos_contract (remote w) = (Return end_id, rem) ->
  opensea_sync X kudos_contract start_id w =
    for_each (range start_id (end_id + 1)) (opensea_sync_body X kudos_contract url)
      (World rem (store w) (trace w ++ [totalSupply_call])).
Proof.
  intros Hurl Hsupply.
  unfold opensea_sync, bind at 1, lift at 1. rewrite Hurl. cbn [of_result].
  unfold bind at 1, remote_call at 1. rewrite Hsupply. reflexivity.
Qed.



(** X4. When the iterations for the ids below [k] have gone through, the
    request for [k] is answered with a payload that can be read, and the
    upsert of what it held raises, [opensea_sync] ends with that exception
    right after that upsert call: no later id is requested. *)
Theorem opensea_sync_aborts_on_failed_upsert :
  forall kudos_contract start_id end_id k url (w w_k : world R S)
         rem r rem_r kudos_id txid e rem_k st_k,
    opensea_url (kc_network kudos_contract) = Return url ->
    totalSupply X kudos_contract (remote w) = (Return end_id, rem) ->
    start_id <= k <= end_id ->
    for_each (range start_id k) (opensea_sync_body X kudos_contract url)
      (World rem (store w) (trace w ++ [totalSupply_call])) = (Ok tt, w_k) ->
    requests_get X url (kc_address kudos_contract) k (OPENSEA_API_KEY X)
      (remote w_k) = (Return r, rem_r) ->
    opensea_decode r = Return (kudos_id, txid) ->
    sync_db X kudos_contract kudos_id txid rem_r (store w_k)
      = (Raise e, (rem_k, st_k)) ->
    opensea_sync X kudos_contract start_id w =
      (Exc e,
       World rem_k st_k
         (trace w_k ++ opensea_round url (kc_address kudos_contract)
                         (OPENSEA_API_KEY X) (k, (kudos_id, txid)))).
Proof.
  intros kc start_id end_id k url w w_k rem r rem_r kudos_id txid e rem_k st_k
         Hurl Hsupply Hk Hbefore Hget Hdecode Hraise.
  rewrite (opensea_sync_unfold _ _ _ _ _ _ Hurl Hsupply).
  rewrite (range_app start_id k (end_id + 1)) by lia.
  rewrite for_each_app, Hbefore.
  rewrite (range_cons k) by lia. cbn [for_each].
  unfold bind at 1, opensea_sync_body at 1, bind, remote_call at 1, lift at 1,
    store_call at 1.
  rewrite Hget. cbn [of_result]. rewrite Hdecode. cbn [of_result remote store trace].
  rewrite Hraise. cbn [of_result opensea_round]. rewrite <- app_assoc. reflexivity.
Qed.

(** X5. With a start above the supply the range is empty: on rinkeby or
    mainnet [opensea_sync] reads the supply, returns normally, and makes no
    request and no upsert (where [id_sync] upserts its start). *)
Theorem opensea_sync_empty_range_is_noop :
  forall kudos_contract start_id end_id url (w : world R S) rem,
    opensea_url (kc_network kudos_contract) = Return url ->
    totalSupply X kudos_contract (remote w) = (Return end_id, rem) ->
    end_id < start_id ->
    opensea_sync X kudos_contract start_id w =
      (Ok tt, World rem (store w) (trace w ++ [totalSupply_call])).
Proof.
  intros kc start_id end_id url w rem Hurl Hsupply Hlt.
  rewrite (opensea_sync_unfold _ _ _ _ _ _ Hurl Hsupply).
  rewrite range_nil by lia. reflexivity.
Qed.

(** X6. For a contract on any network other than rinkeby and mainnet,
    [opensea_sync] raises its [RuntimeError] at once: no call is made, not
    even the read of the supply, and the world is as it was. *)
Theorem opensea_sync_unsupported_network :
  forall kudos_contract start_id (w : world R S),
    kc_network kudos_contract <> "rinkeby" ->
    kc_network kudos_contract <> "mainnet" ->
    opensea_sync X kudos_contract start_id w =
      (Exc (RuntimeError
         "The Open Sea API is only supported for contracts on rinkeby and mainnet."),
       w).
Proof.
  intros kc start_id w Hr Hm.
  unfold opensea_sync, bind, lift, opensea_url.
  destruct (String.eqb_spec (kc_network kc) "rinkeby"); [contradiction|].
  destruct (String.eqb_spec (kc_network kc) "mainnet"); [contradiction|].
  reflexivity.
Qed.

End ExternalIndex.

(** * Further properties of the coordinator *)

(** ** Digits as a start *)

Lemma is_digit_val c : is_digit c = true -> 0 <= digit_val c.
Proof.
  unfold is_digit, digit_val. intros H.
  apply andb_prop in H as [H _]. apply N.leb_le in H. lia.
Qed.

Lemma is_digit_not_space c : is_digit c = true -> is_space c = false.
Proof.
  unfold is_digit, is_space. intros H.
  apply andb_prop in H as [H1 H2]. apply N.leb_le in H1. apply N.leb_le in H2.
  apply orb_false_iff. split.
  - apply andb_false_iff. right. apply N.leb_gt. lia.
  - apply N.eqb_neq. lia.
Qed.

Lemma lstrip_digits cs : forallb is_digit cs = true -> lstrip cs = cs.
Proof.
  destruct cs as [|c cs]; [reflexivity|]. cbn [forallb lstrip]. intros H.
  apply andb_prop in H as [H _]. rewrite (is_digit_not_space c H). reflexivity.
Qed.

Lemma strip_digits cs : forallb is_digit cs = true -> strip cs = cs.
Proof.
  intros H. unfold strip. rewrite (lstrip_digits cs H).
  rewrite lstrip_digits; [apply rev_involutive|].
  apply forallb_forall. intros c Hc. apply in_rev in Hc.
  rewrite forallb_forall in H. auto.
Qed.

Lemma parse_digits_all_digits cs : forall prev acc,
  forallb is_digit cs = true -> (cs <> [] \/ prev = true) ->
  exists n, parse_digits cs prev acc = Some n /\ (0 <= acc -> 0 <= n).
Proof.
  induction cs as [|c cs IH]; intros prev acc Hall Hne; cbn [parse_digits].
  - destruct Hne as [Hne| ->]; [contradiction|]. exists acc. auto.
  - cbn [forallb] in Hall. apply andb_prop in Hall as [Hc Hall].
    rewrite Hc.
    destruct (IH true (10 * acc + digit_val c) Hall (or_intror eq_refl))
      as (n & Hn & Hpos).
    exists n. split; [exact Hn|]. intros Hacc. apply Hpos.
    pose proof (is_digit_val c Hc). lia.
Qed.

Lemma length_list_ascii_of_string s :
  List.length (list_ascii_of_string s) = String.length s.
Proof. induction s as [|c s IH]; cbn; congruence. Qed.

(** [int()] of a string of digits, no more of them than the limit, is a
    number that is not negative. *)
Lemma int_of_str_digits s :
  isdigit s = true ->
  Z.of_nat (String.length s) <= int_max_str_digits ->
  exists n, 0 <= n /\ int_of_str s = Return n.
Proof.
  unfold isdigit, int_of_str. rewrite <- length_list_ascii_of_string.
  destruct (list_ascii_of_string s) as [|c cs] eqn:Hs; [discriminate|].
  intros Hall Hlen. rewrite (strip_digits _ Hall).
  assert (Hc : is_digit c = true).
  { cbn [forallb] in Hall. apply andb_prop in Hall. tauto. }
  destruct (Ascii.eqb_spec c "-") as [->|_]; [discriminate|].
  destruct (Ascii.eqb_spec c "+") as [->|_]; [discriminate|].
  unfold int_of_digits.
  destruct (parse_digits_all_digits (c :: cs) false 0 Hall)
    as (n & -> & Hpos); [left; discriminate|].
  pose proof (filter_length_le is_digit (c :: cs)) as Hle.
  destruct (Z.leb_spec (Z.of_nat (List.length (List.filter is_digit (c :: cs))))
              int_max_str_digits) as [_|Hgt]; [|lia].
  exists n. split; [apply Hpos; lia|reflexivity].
Qed.

Section MoreCoordinator.

Context {R S : Type} (X : Externals R S).

Ltac enter_handle Hnew :=
  unfold handle;
  cbn [opt_network opt_syncmethod opt_start opt_rewind opt_catchup];
  unfold bind at 1, remote_call at 1; rewrite Hnew; cbn [of_result].

(** X8. With the enumeration or the external-index strategy and a [--start]
    that is not empty, the strategy is started at [int(start)], right after
    the contract handle is built; when [start] is no number the [ValueError]
    of the conversion ends the run there.  A string of digits 0 to 9, no more
    than 4300 of them, always converts, to a start that is not negative.
    [--start] is taken to be an ASCII string, the scope of [int]. *)
Theorem handle_explicit_start :
  forall fuel o (w : world R S) kudos_contract rem s,
    opt_syncmethod o <> by_filter ->
    opt_start o = Some s ->
    s <> "" ->
    is_ascii s = true ->
    KudosContract_new X (network_name (opt_network o)) (remote w)
      = (Return kudos_contract, rem) ->
    handle X fuel o w =
      (let w1 := World rem (store w)
                   (trace w ++ [KudosContract_call (network_name (opt_network o))]) in
       match int_of_str s with
       | Return n =>
           match opt_syncmethod o with
           | by_opensea => opensea_sync X kudos_contract n w1
           | _ => id_sync X fuel kudos_contract n w1
           end
       | Raise e => (Exc e, w1)
       end)
    /\ (isdigit s = true ->
        Z.of_nat (String.length s) <= int_max_str_digits ->
        exists n, 0 <= n /\ int_of_str s = Return n).
Proof.
  intros fuel [network syncmethod start rewind catchup] w kc rem s.
  cbn [opt_network opt_syncmethod opt_start opt_rewind opt_catchup].
  intros Hmethod -> Hne _ Hnew.
  split; [|apply int_of_str_digits].
  assert (Htruthy : truthy_str (Some s) = true).
  { cbn. destruct (String.eqb_spec s ""); [contradiction|reflexivity]. }
  enter_handle Hnew. rewrite Htruthy. cbn [the_str].
  destruct syncmethod; [congruence| |];
    unfold bind at 1; unfold ret at 1; unfold bind at 1, lift at 1;
    cbn [read_local rbind int];
    destruct (int_of_str s) as [n|e]; reflexivity.
Qed.

(** X9. When none of the three cursor options holds a value that counts as
    true (as with [--start ''] or [--rewind 0]), no branch assigns the start:
    the run ends with an [UnboundLocalError] on [fromBlock] (event-log
    strategy) or on [start_id] (the two others), having only built the
    contract handle. *)
Theorem handle_without_cursor :
  forall fuel o (w : world R S) kudos_contract rem,
    truthy_str (opt_start o) = false ->
    truthy_int (opt_rewind o) = false ->
    opt_catchup o = false ->
    KudosContract_new X (network_name (opt_network o)) (remote w)
      = (Return kudos_contract, rem) ->
    handle X fuel o w =
      (Exc (UnboundLocalError
              match opt_syncmethod o with
              | by_filter => "fromBlock"
              | _ => "start_id"
              end),
       World rem (store w)
         (trace w ++ [KudosContract_call (network_name (opt_network o))])).
Proof.
  intros fuel [network syncmethod start rewind catchup] w kc rem.
  cbn [opt_network opt_syncmethod opt_start opt_rewind opt_catchup].
  intros Hstart Hrewind -> Hnew.
  enter_handle Hnew. rewrite Hstart, Hrewind.
  destruct syncmethod; reflexivity.
Qed.

End MoreCoordinator.

(** ** Footprints *)

Lemma upserts_app (t1 t2 : list call) : upserts (t1 ++ t2) = upserts t1 ++ upserts t2.
Proof. unfold upserts. apply filter_app. Qed.

Section Footprint.

Context {R S : Type}.

Lemma footprint_ret {A} P (a : A) : footprint P (@ret R S A a).
Proof. intros w. exists []. cbn. rewrite app_nil_r. auto. Qed.

Lemma footprint_raise {A} P e : footprint P (@raise R S A e).
Proof. intros w. exists []. cbn. rewrite app_nil_r. auto. Qed.

Lemma footprint_lift {A} P (r : result A) : footprint P (@lift R S A r).
Proof. intros w. exists []. cbn. rewrite app_nil_r. auto. Qed.

Lemma footprint_remote_call {A} (P : call -> bool) c (f : R -> result A * R) :
  P c = true -> footprint P (@remote_call R S A c f).
Proof.
  intros Hc w. exists [c]. unfold remote_call.
  destruct (f (remote w)) as [r rem]. cbn. rewrite Hc. auto.
Qed.

Lemma footprint_store_call {A} (P : call -> bool) c
    (f : R -> S -> result A * (R * S)) :
  P c = true -> is_upsert c = true -> footprint P (@store_call R S A c f).
Proof.
  intros Hc Hup w. exists [c]. unfold store_call.
  destruct (f (remote w) (store w)) as [r [rem st]]. cbn. rewrite Hc, Hup.
  repeat split. discriminate.
Qed.

Lemma footprint_store_query {A} (P : call -> bool) c (f : S -> A) :
  P c = true -> footprint P (@store_query R S A c f).
Proof. intros Hc w. exists [c]. cbn. rewrite Hc. auto. Qed.

Lemma footprint_bind {A B} P (c : M R S A) (k : A -> M R S B) :
  footprint P c -> (forall a, footprint P (k a)) -> footprint P (bind c k).
Proof.
  intros Hc Hk w. unfold bind.
  destruct (Hc w) as (t1 & Htr1 & Hall1 & Hst1).
  destruct (c w) as [[a|e|] w1]; cbn [snd] in *;
    try solve [exists t1; auto].
  destruct (Hk a w1) as (t2 & Htr2 & Hall2 & Hst2).
  exists (t1 ++ t2). split; [|split].
  - rewrite Htr2, Htr1, app_assoc. reflexivity.
  - rewrite forallb_app, Hall1, Hall2. reflexivity.
  - rewrite upserts_app. intros Hnone. apply app_eq_nil in Hnone as [H1 H2].
    rewrite (Hst2 H2). auto.
Qed.

Lemma footprint_for_each {A} P (xs : list A) (body : A -> M R S unit) :
  (forall x, footprint P (body x)) -> footprint P (for_each xs body).
Proof.
  intros Hbody. induction xs as [|x xs IH]; cbn [for_each].
  - apply footprint_ret.
  - apply footprint_bind; auto.
Qed.

Lemma footprint_while {L} P fuel (cond : L -> bool) (body : L -> M R S L) :
  (forall l, footprint P (body l)) -> forall l, footprint P (while fuel cond body l).
Proof.
  intros Hbody. induction fuel as [|fuel IH]; intros l; cbn [while].
  - intros w. exists []. cbn. rewrite app_nil_r. auto.
  - destruct (cond l); [apply footprint_bind; auto|apply footprint_ret].
Qed.

(** A computation that starts with a remote call. *)
Lemma footprint_after_call {A B} (P : call -> bool) c (f : R -> result A * R)
    (k : A -> M R S B) :
  (forall a, footprint P (k a)) ->
  forall w, exists t,
    trace (snd (bind (remote_call c f) k w)) = trace w ++ c :: t
    /\ forallb P t = true
    /\ (upserts t = [] -> store (snd (bind (remote_call c f) k w)) = store w)
    /\ (forall e, fst (f (remote w)) = Raise e -> t = []).
Proof.
  intros Hk w. unfold bind, remote_call.
  destruct (f (remote w)) as [[a|e] rem]; cbn [of_result snd fst].
  - destruct (Hk a (World rem (store w) (trace w ++ [c]))) as (t & Htr & Hall & Hst).
    exists t. cbn [trace store] in *. rewrite Htr, <- app_assoc.
    repeat split; auto. discriminate.
  - exists []. cbn. auto.
Qed.

Context (X : Externals R S).

Ltac footprints :=
  repeat first
    [ apply footprint_ret
    | apply footprint_raise
    | apply footprint_lift
    | apply footprint_remote_call; reflexivity
    | apply footprint_store_call; reflexivity
    | apply footprint_store_query; reflexivity
    | apply footprint_for_each; intros ?
    | apply footprint_while; intros ?
    | apply footprint_bind; [|intros ?]
    | match goal with
      | |- footprint _ (if ?b then _ else _) => destruct b
      | |- footprint _ (match ?x with _ => _ end) => destruct x
      end
    | progress cbv zeta ].

Lemma id_sync_footprint fuel kudos_contract start_id :
  footprint (allowed by_id) (id_sync X fuel kudos_contract start_id).
Proof. unfold id_sync, id_sync_body. footprints. Qed.

Lemma opensea_sync_footprint kudos_contract start_id :
  footprint (allowed by_opensea) (opensea_sync X kudos_contract start_id).
Proof. unfold opensea_sync, opensea_sync_body. footprints. Qed.

Lemma filter_sync_footprint kudos_contract fromBlock :
  footprint (allowed by_filter) (filter_sync X kudos_contract fromBlock).
Proof. unfold filter_sync. footprints. Qed.

Lemma handle_footprint fuel o (w : world R S) :
  exists t,
    trace (snd (handle X fuel o w)) =
      trace w ++ KudosContract_call (network_name (opt_network o)) :: t
    /\ forallb (allowed (opt_syncmethod o)) t = true
    /\ (upserts t = [] -> store (snd (handle X fuel o w)) = store w)
    /\ (forall e,
          fst (KudosContract_new X (network_name (opt_network o)) (remote w))
            = Raise e -> t = []).
Proof.
  destruct o as [network syncmethod start rewind catchup].
  unfold handle. cbn [opt_network opt_syncmethod opt_start opt_rewind opt_catchup].
  apply footprint_after_call. intros kudos_contract.
  destruct syncmethod; footprints;
    first [ apply id_sync_footprint | apply opensea_sync_footprint
          | apply filter_sync_footprint ].
Qed.

(** X10. Whatever the options and whatever the collaborators do, [handle]
    first builds the contract handle for the given network, once; every call
    after it is one of its strategy: the event-log strategy reads the head
    block, creates a filter, reads its entries and upserts with a
    transaction id; the enumeration strategy reads the supply and the
    largest id and upserts without a transaction id; the external-index
    strategy reads the supply and the largest id, sends requests and upserts
    with a transaction id.  When the handle cannot be built nothing else is
    called. *)
Theorem handle_calls_only_its_strategy :
  forall fuel o (w : world R S),
    exists t,
      trace (snd (handle X fuel o w)) =
        trace w ++ KudosContract_call (network_name (opt_network o)) :: t
      /\ (forall c, In c t -> allowed (opt_syncmethod o) c = true)
      /\ (forall e,
            fst (KudosContract_new X (network_name (opt_network o)) (remote w))
              = Raise e -> t = []).
Proof.
  intros fuel o w.
  destruct (handle_footprint fuel o w) as (t & Htr & Hall & _ & Hraise).
  exists t. split; [exact Htr|]. split; [|exact Hraise].
  apply forallb_forall. exact Hall.
Qed.

End Footprint.

(** ** A cursor and the enumeration together *)

Section Cursors.

Context {R S : Type} (X : Externals R S).

Ltac enter_handle Hnew :=
  unfold handle;
  cbn [opt_network opt_syncmethod opt_start opt_rewind opt_catchup];
  unfold bind at 1, remote_call at 1; rewrite Hnew; cbn [of_result].




End Cursors.

(** ** Runs in the second concrete world *)


(** The upsert of token 2 raises: the third event is not applied. *)
Lemma filter_sync_aborts_on_failed_upsert_witness :
  filter_sync (Scenario.X (Some 2)) (Sim.kudos "mainnet") (PStr "earliest")
    (Scenario.world0 3 []) =
  (Exc (OtherError "BadFunctionCallOutput"),
   World (Scenario.chain0 3) [(1, PStr "0xaa")]
     ([createFilter_call (PStr "earliest"); get_all_entries_call;
       sync_db_call 1 (PStr "0xaa")] ++ [sync_db_call 2 (PStr "0xbb")])).
Proof.
  apply (filter_sync_aborts_on_failed_upsert (Scenario.X (Some 2))
           (Sim.kudos "mainnet") (PStr "earliest") (Scenario.world0 3 [])
           (World (Scenario.chain0 3) [(1, PStr "0xaa")]
              [createFilter_call (PStr "earliest"); get_all_entries_call;
               sync_db_call 1 (PStr "0xaa")])
           1 (Scenario.chain0 3) (Scenario.chain0 3)
           [ {| blockNumber := 10; _tokenId := 1; transactionHash := [Byte.xaa] |} ]
           {| blockNumber := 11; _tokenId := 2; transactionHash := [Byte.xbb] |}
           [ {| blockNumber := 12; _tokenId := 1; transactionHash := [Byte.xcc] |} ]
           (OtherError "BadFunctionCallOutput") (Scenario.chain0 3)
           [(1, PStr "0xaa")]).
  - reflexivity.
  - reflexivity.
  - reflexivity.
  - reflexivity.
Defined.

(** The upsert of token 2 raises: token 3 is not upserted. *)
Lemma id_sync_aborts_on_failed_upsert_witness :
  id_sync (Scenario.X (Some 2)) 5 (Sim.kudos "mainnet") 1 (Scenario.world0 3 []) =
  (Exc (OtherError "BadFunctionCallOutput"),
   World (Scenario.chain0 3) [(1, PNone)]
     ([totalSupply_call; sync_db_without_txid_call 1]
        ++ [sync_db_without_txid_call 2])).
Proof.
  apply (id_sync_aborts_on_failed_upsert (Scenario.X (Some 2)) 5
           (Sim.kudos "mainnet") 1 3 2 (Scenario.world0 3 [])
           (World (Scenario.chain0 3) [(1, PNone)]
              [totalSupply_call; sync_db_without_txid_call 1])
           (Scenario.chain0 3) (OtherError "BadFunctionCallOutput")
           (Scenario.chain0 3) [(1, PNone)]).
  - reflexivity.
  - lia.
  - reflexivity.
  - reflexivity.
  - cbn. lia.
Defined.


(** The upsert of token 3 raises: token 4 is not requested. *)
Lemma opensea_sync_aborts_on_failed_upsert_witness :
  opensea_sync (Scenario.X (Some 3)) (Sim.kudos "mainnet") 3 (Scenario.world0 4 []) =
  (Exc (OtherError "BadFunctionCallOutput"),
   World (Scenario.chain0 4) []
     ([totalSupply_call] ++
      opensea_round "https://api.opensea.io/api/v1/events" "0xkudos" "key"
        (3, (3, PStr "0xcc")))).
Proof.
  apply (opensea_sync_aborts_on_failed_upsert (Scenario.X (Some 3))
           (Sim.kudos "mainnet") 3 4 3 "https://api.opensea.io/api/v1/events"
           (Scenario.world0 4 [])
           (World (Scenario.chain0 4) [] [totalSupply_call])
           (Scenario.chain0 4) (Scenario.answer 3) (Scenario.chain0 4)
           3 (PStr "0xcc") (OtherError "BadFunctionCallOutput")
           (Scenario.chain0 4) []).
  - reflexivity.
  - reflexivity.
  - lia.
  - reflexivity.
  - reflexivity.
  - reflexivity.
  - reflexivity.
Defined.

(** A start of 9 on a ledger of supply 4. *)
Lemma opensea_sync_empty_range_is_noop_witness :
  opensea_sync (Scenario.X None) (Sim.kudos "rinkeby") 9 (Scenario.world0 4 []) =
  (Ok tt, World (Scenario.chain0 4) [] ([] ++ [totalSupply_call])).
Proof.
  apply (opensea_sync_empty_range_is_noop (Scenario.X None) (Sim.kudos "rinkeby")
           9 4 "https://rinkeby-api.opensea.io/api/v1/events"
           (Scenario.world0 4 []) (Scenario.chain0 4)).
  - reflexivity.
  - reflexivity.
  - lia.
Defined.

(** A contract on localhost. *)
Lemma opensea_sync_unsupported_network_witness :
  opensea_sync (Scenario.X None) (Sim.kudos "localhost") 1 (Scenario.world0 4 []) =
  (Exc (RuntimeError
     "The Open Sea API is only supported for contracts on rinkeby and mainnet."),
   Scenario.world0 4 []).
Proof.
  apply (opensea_sync_unsupported_network (Scenario.X None)
           (Sim.kudos "localhost") 1 (Scenario.world0 4 [])).
  - discriminate.
  - discriminate.
Defined.

(** [--start 2] with the enumeration strategy. *)
Lemma handle_explicit_start_witness :
  handle (Scenario.X None) 5 (Sim.options mainnet by_id (Some "2") None false)
    (Scenario.world0 3 []) =
    (let w1 := World (Scenario.chain0 3) [] ([] ++ [KudosContract_call "mainnet"]) in
     match int_of_str "2" with
     | Return n => id_sync (Scenario.X None) 5 (Sim.kudos "mainnet") n w1
     | Raise e => (Exc e, w1)
     end)
  /\ (isdigit "2" = true ->
      Z.of_nat (String.length "2") <= int_max_str_digits ->
      exists n, 0 <= n /\ int_of_str "2" = Return n).
Proof.
  apply (handle_explicit_start (Scenario.X None) 5
           (Sim.options mainnet by_id (Some "2") None false)
           (Scenario.world0 3 []) (Sim.kudos "mainnet") (Scenario.chain0 3) "2").
  - discriminate.
  - reflexivity.
  - discriminate.
  - reflexivity.
  - reflexivity.
Defined.

(** [--rewind 0] with the enumeration strategy. *)
Lemma handle_without_cursor_witness :
  handle (Scenario.X None) 5 (Sim.options mainnet by_id None (Some 0) false)
    (Scenario.world0 3 []) =
  (Exc (UnboundLocalError "start_id"),
   World (Scenario.chain0 3) [] ([] ++ [KudosContract_call "mainnet"])).
Proof.
  apply (handle_without_cursor (Scenario.X None) 5
           (Sim.options mainnet by_id None (Some 0) false)
           (Scenario.world0 3 []) (Sim.kudos "mainnet") (Scenario.chain0 3)).
  - reflexivity.
  - reflexivity.
  - reflexivity.
  - reflexivity.
Defined.


